(** * Chicago crime dashboard: a model of [hotspots.py] and [main.py]

    The two scripts are one-shot batch pipelines.  Each reads the
    [homicides] table of a SQLite database, one of them also fetches the
    community-area polygons from a remote endpoint, and each writes one
    HTML document.

    The development has two parts.  The first embeds the code: the
    run-time effects (exceptions, standard output, the database, the
    network, the file system) are a small state-and-exception monad, the
    pandas operations the scripts call are list functions, a GeoDataFrame
    column is a list indexed by row position, and floating-point numbers
    are the kernel's binary64 floats.  The second part states and proves
    the properties. *)

From Stdlib Require Import ZArith Floats.
From stdpp Require Import list strings gmap sorting pretty.

Local Open Scope Z_scope.
Local Open Scope string_scope.

(* ===================================================================== *)
(** * Part I: the embedding                                              *)
(* ===================================================================== *)

(** ** Exceptions, effects and the run-time monad *)

(** A Python exception, reduced to the text [str(e)] that the handlers of
    the scripts print. *)
Inductive exn := Exception (msg : string).

Definition exn_str (e : exn) : string :=
  match e with Exception msg => msg end.

(** How a call ends: it returns a value or raises. *)
Inductive outcome (A : Type) :=
  | Returns (a : A)
  | Raises (e : exn).
Arguments Returns {A} a.
Arguments Raises {A} e.

(** A computation over a world [W]: it ends somehow and leaves a world. *)
Definition M (W A : Type) : Type := W → outcome A * W.

Definition ret {W A} (a : A) : M W A := λ w, (Returns a, w).

Definition raise {W A} (e : exn) : M W A := λ w, (Raises e, w).

Definition bind {W A B} (m : M W A) (k : A → M W B) : M W B :=
  λ w, match m w with
       | (Returns a, w') => k a w'
       | (Raises e, w') => (Raises e, w')
       end.

(** [try: m except Exception as e: h e] *)
Definition try_except {W A} (m : M W A) (h : exn → M W A) : M W A :=
  λ w, match m w with
       | (Returns a, w') => (Returns a, w')
       | (Raises e, w') => h e w'
       end.

Declare Scope run_scope.
Delimit Scope run_scope with run.
Notation "'let*' x ':=' m 'in' k" := (bind m (λ x, k))
  (at level 10, x name, m at level 100, k at level 200) : run_scope.
Notation "m ';;' k" := (bind m (λ _, k))
  (at level 100, right associativity) : run_scope.

(** ** Numbers *)

(** An [int64] cell read as [float64]: the integer rounded to the nearest
    binary64 value. *)
Definition float_of_Z (z : Z) : float :=
  SF2Prim (binary_normalize prec emax z 0 false).

(** Python's [sum] over a Series of booleans: [0 + b1 + b2 + ...], with
    [True] counting 1 and [False] 0. *)
Definition sum_bool (bs : list bool) : Z :=
  foldl (λ acc (b : bool), acc + (if b then 1 else 0)) 0 bs.

(** The total of an integer column. *)
Definition column_sum (column : list Z) : Z := foldr Z.add 0 column.

(** Sorting that keeps tied elements in their order: [x] goes before the
    first element it may precede. *)
Fixpoint insert_by {A} (R : A → A → Prop) `{RelDecision A A R} (x : A) (l : list A)
  : list A :=
  match l with
  | [] => [x]
  | y :: rest => if decide (R x y) then x :: y :: rest else y :: insert_by R x rest
  end.

Definition sort_by {A} (R : A → A → Prop) `{RelDecision A A R} (l : list A) : list A :=
  foldr (insert_by R) [] l.

(** A numeric cell read by pandas: SQL NULL becomes NaN. *)
Definition cell_value (c : option float) : float :=
  match c with Some x => x | None => nan end.

(** [Series.min()] and [Series.max()] of a float column: NaN cells are
    skipped, and the result is NaN when nothing is left. *)
Definition is_nan (x : float) : bool := negb (PrimFloat.eqb x x).

Definition series_min (xs : list float) : float :=
  match filter (λ x, is_nan x = false) xs with
  | [] => nan
  | x :: rest => foldl (λ m y, if PrimFloat.ltb y m then y else m) x rest
  end.

Definition series_max (xs : list float) : float :=
  match filter (λ x, is_nan x = false) xs with
  | [] => nan
  | x :: rest => foldl (λ m y, if PrimFloat.ltb m y then y else m) x rest
  end.

(** ** The [homicides] table *)

(** A calendar timestamp as pandas holds it after [pd.to_datetime]. *)
Record Timestamp := mkTimestamp {
  ts_year : Z;
  ts_month : Z;
  ts_day : Z;
  ts_hour : Z;
  ts_minute : Z;
  ts_second : Z;
}.

(** A [Date] cell of the table: NULL, or a text together with what
    [pd.to_datetime] reads from it ([None]: the text is not a date and
    [pd.to_datetime] raises).  The reading is the one of the call the
    program makes, on the column of the rows with both coordinates: a text
    that this call cannot read, in the format it settled on, has [None]. *)
Inductive date_cell :=
  | DateNull
  | DateText (text : string) (parsed : option Timestamp).

(** A row of the table.  The columns are the ones the two scripts read;
    a NULL cell is [None]. *)
Record Homicide := mkHomicide {
  Latitude : option float;
  Longitude : option float;
  Date : date_cell;
  Year : option Z;
  Case_Number : string;
  Description : string;
  Location_Description : option string;
}.

(** The file [sqlite3.connect('homicides.db')] opens.  Connecting creates
    it, as an empty database, when it is absent: [connect db files] are
    the files after connecting, [db] standing for such a new database. *)
Definition database_file : string := "homicides.db".

Definition connect {F} (db : F) (files : gmap string F) : gmap string F :=
  match files !! database_file with
  | Some _ => files
  | None => <[database_file := db]> files
  end.

(** [WHERE Latitude IS NOT NULL AND Longitude IS NOT NULL] *)
Definition located (r : Homicide) : bool :=
  match Latitude r, Longitude r with
  | Some _, Some _ => true
  | _, _ => false
  end.

(** ** The geometry library *)

(** [shapely.geometry.Point(x, y)] *)
Record Point := mkPoint { point_x : float; point_y : float }.

(** What the scripts use of shapely and geopandas: a type of polygon
    geometries, the containment test [point.within(polygon)], and
    [polygon.area]. *)
Class Geometry := {
  Polygon : Type;
  within : Point → Polygon → bool;
  area : Polygon → float;
}.

(** An instance for worked examples: rectangles with sides parallel to
    the axes.  A point is within a rectangle when it is in its interior;
    a point on an edge is not. *)
Record Box := mkBox { x_min : float; y_min : float; x_max : float; y_max : float }.

Definition box_within (p : Point) (b : Box) : bool :=
  (PrimFloat.ltb (x_min b) (point_x p) && PrimFloat.ltb (point_x p) (x_max b) &&
   PrimFloat.ltb (y_min b) (point_y p) && PrimFloat.ltb (point_y p) (y_max b))%bool.

Definition box_area (b : Box) : float :=
  ((x_max b - x_min b) * (y_max b - y_min b))%float.

Definition BoxGeometry : Geometry :=
  {| Polygon := Box; within := box_within; area := box_area |}.

(** ** [hotspots.py]: the choropleth pipeline *)

Module Hotspots.
Section Pipeline.
Context `{Geometry}.

(** A feature of the GeoJSON collection, as a row of the GeoDataFrame
    that [from_features] builds: the [community] property and the
    geometry.  The frame has the default index, so a row's label is its
    position. *)
Record Feature := mkFeature {
  community : string;
  feature_geometry : Polygon;
}.

(** A row of the incident GeoDataFrame: the five selected columns and the
    point built from the coordinates. *)
Record CrimeRow := mkCrimeRow {
  crime_Latitude : option float;
  crime_Longitude : option float;
  crime_Date : date_cell;
  crime_Year : option Z;
  crime_Case_Number : string;
  geometry : Point;
}.

(** A line of standard output: a text, or the table of statistics (one
    row per neighbourhood: community, crime_count, crime_density). *)
Inductive message :=
  | Text (s : string)
  | Table (rows : list (string * Z * float)).

(** The saved map, by its data: the choropleth layer (the annotated
    frame), the ends of the colour scale and the heat-map points. *)
Record Document := mkDocument {
  choropleth : list (Feature * Z * float);
  color_vmin : float;
  color_vmax : float;
  heat_data : list (float * float);
}.

(** What a file of the working directory holds: a saved map, nothing (a
    file opened for writing and not written), or a database. *)
Inductive File :=
  | Html (d : Document)
  | Blank
  | Database.

(** The world of a run.  [endpoint] is what the boundary request gives
    (an exception when the request, the JSON decoding or the feature
    parsing fails) and [database] is what connecting and running a query
    gives; [files] are the files of the working directory; the two
    counters record how many requests and queries were issued. *)
Record World := mkWorld {
  endpoint : exn + list Feature;
  database : exn + list Homicide;
  files : gmap string File;
  stdout : list message;
  http_requests : nat;
  sql_queries : nat;
}.

(** The four ways a run changes the world.  A query connects first, so
    the database file exists afterwards. *)
Definition log (m : message) (w : World) : World :=
  mkWorld (endpoint w) (database w) (files w) (stdout w ++ [m])
          (http_requests w) (sql_queries w).

Definition count_request (w : World) : World :=
  mkWorld (endpoint w) (database w) (files w) (stdout w)
          (S (http_requests w)) (sql_queries w).

Definition count_query (w : World) : World :=
  mkWorld (endpoint w) (database w) (connect Database (files w)) (stdout w)
          (http_requests w) (S (sql_queries w)).

Definition write_file (name : string) (f : File) (w : World) : World :=
  mkWorld (endpoint w) (database w) (<[name := f]> (files w)) (stdout w)
          (http_requests w) (sql_queries w).

Definition print (m : message) : M World unit :=
  λ w, (Returns (), log m w).

(** [requests.get(url)] followed by
    [gpd.GeoDataFrame.from_features(response.json()["features"])] *)
Definition fetch_features : M World (list Feature) :=
  λ w, match endpoint w with
       | inl e => (Raises e, count_request w)
       | inr features => (Returns features, count_request w)
       end.

(** [sqlite3.connect], [pd.read_sql_query] over the table with the
    row condition [cond], [conn.close()] *)
Definition read_sql_query (cond : Homicide → bool) : M World (list Homicide) :=
  λ w, match database w with
       | inl e => (Raises e, count_query w)
       | inr table => (Returns (filter (λ r, cond r = true) table), count_query w)
       end.

(** What the script uses of folium and branca, each call with the
    exception it raises, if any: building the base map, the colour scale,
    the GeoJson layer with its tooltip and the legend, from the annotated
    frame and the ends of the scale; building the heat map and the layer
    control, from the points; and rendering the map, which [m.save] does
    after opening the file. *)
Class Folium := {
  build_choropleth : list (Feature * Z * float) → float → float → option exn;
  build_heatmap : list (float * float) → option exn;
  render : Document → option exn;
}.
Context `{F : Folium}.

(** A library call that raises or not. *)
Definition call (raised : option exn) : M World unit :=
  λ w, match raised with
       | Some e => (Raises e, w)
       | None => (Returns (), w)
       end.

(** [m.save(output_file)]: the file is opened for writing, which creates
    or empties it; the map is rendered; the text is written. *)
Definition save (output_file : string) (d : Document) : M World unit :=
  λ w, let w := write_file output_file Blank w in
       match render d with
       | Some e => (Raises e, w)
       | None => (Returns (), write_file output_file (Html d) w)
       end.

Definition load_chicago_neighborhoods : M World (option (list Feature)) :=
  try_except
    (let* neighborhoods := fetch_features in
     ret (Some neighborhoods))%run
    (λ e, print (Text ("Error loading neighborhood data: " ++ exn_str e)) ;;
          ret None)%run.

(** The selected columns of a table row, with
    [Point(xy) for xy in zip(crime_data.Longitude, crime_data.Latitude)]. *)
Definition crime_row (r : Homicide) : CrimeRow :=
  {| crime_Latitude := Latitude r;
     crime_Longitude := Longitude r;
     crime_Date := Date r;
     crime_Year := Year r;
     crime_Case_Number := Case_Number r;
     geometry := mkPoint (cell_value (Longitude r)) (cell_value (Latitude r)) |}.

Definition load_crime_data : M World (option (list CrimeRow)) :=
  try_except
    (let* crime_data := read_sql_query located in
     ret (Some (map crime_row crime_data)))%run
    (λ e, print (Text ("Error loading crime data: " ++ exn_str e)) ;;
          ret None)%run.

(** The [crime_count] column: set to 0 everywhere, then for each row
    [idx] of [iterrows()] the cell at [idx] is set to the number of
    incident points for which [within] holds. *)
Definition crime_counts (neighborhoods : list Feature) (crime_data : list CrimeRow)
  : list Z :=
  foldl
    (λ column '(idx, neighborhood),
       let crime_count :=
         sum_bool (map (λ c, within (geometry c) (feature_geometry neighborhood))
                       crime_data) in
       <[idx := crime_count]> column)
    (replicate (length neighborhoods) 0)
    (imap pair neighborhoods).

(** The number of incident points within the geometry of a row, and the
    number of rows whose geometry an incident point is within: the two
    ways of counting that the properties compare the column with. *)
Definition points_within (crime_data : list CrimeRow) (neighborhood : Feature) : nat :=
  length (filter (λ c, within (geometry c) (feature_geometry neighborhood) = true)
                 crime_data).

Definition polygons_around (neighborhoods : list Feature) (c : CrimeRow) : nat :=
  length (filter (λ nb, within (geometry c) (feature_geometry nb) = true)
                 neighborhoods).

(** The [crime_density] column:
    [neighborhoods['crime_count'] / neighborhoods.geometry.area * 1e7],
    cell by cell, in binary64 arithmetic. *)
Definition crime_density (counts : list Z) (neighborhoods : list Feature)
  : list float :=
  zip_with
    (λ count neighborhood,
       (float_of_Z count / area (feature_geometry neighborhood) * 1e7)%float)
    counts neighborhoods.

(** The order of [nlargest]: larger counts first, ties in the order of
    the frame. *)
Definition by_count_desc (a b : string * Z * float) : Prop := (b.1.2 ≤ a.1.2)%Z.

#[local] Instance by_count_desc_dec : RelDecision by_count_desc.
Proof. intros a b. unfold by_count_desc. apply _. Defined.

Definition nlargest (n : nat) (rows : list (string * Z * float))
  : list (string * Z * float) :=
  take n (sort_by by_count_desc rows).

Definition newline : string := String (Ascii.ascii_of_nat 10) "".

Definition output_file : string := "chicago_crime_hotspots.html".

Definition create_chloropleth_map : M World unit :=
  (print (Text "Loading neighborhood boundaries...") ;;
   let* neighborhoods := load_chicago_neighborhoods in
   print (Text "Loading crime data...") ;;
   let* crime_data := load_crime_data in
   match neighborhoods, crime_data with
   | Some neighborhoods, Some crime_data =>
       print (Text "Analyzing crime patterns...") ;;
       let counts := crime_counts neighborhoods crime_data in
       let density := crime_density counts neighborhoods in
       print (Text "Creating chloropleth map...") ;;
       let layer := zip (zip neighborhoods counts) density in
       call (build_choropleth layer (series_min density) (series_max density)) ;;
       print (Text "Adding heatmap layer...") ;;
       let heat :=
         map (λ c, (cell_value (crime_Latitude c), cell_value (crime_Longitude c)))
             crime_data in
       call (build_heatmap heat) ;;
       save output_file
            (mkDocument layer (series_min density) (series_max density) heat) ;;
       print (Text ("Map saved as " ++ output_file)) ;;
       print (Text (newline ++ "Crime Statistics by Neighborhood:")) ;;
       let stats :=
         nlargest 10 (map (λ '(f, c, d), (community f, c, d)) layer) in
       print (Text (newline ++ "Top 10 Neighborhoods by Crime Count:")) ;;
       print (Table stats)
   | _, _ =>
       print (Text "Error: Could not load required data")
   end)%run.

Definition main : M World unit :=
  try_except
    (print (Text "Starting hotspot analysis...") ;;
     create_chloropleth_map ;;
     print (Text (newline ++ "Analysis complete! Open chicago_crime_hotspots.html in your web browser to view the map.")))%run
    (λ e, print (Text ("An error occurred: " ++ exn_str e)) ;;
          raise e)%run.

End Pipeline.
End Hotspots.

(** The world of [create_chloropleth_map] when it tests what the two
    loaders returned: after the first progress line, the boundary load,
    the second progress line and the incident load. *)
Definition after_loading `{Geometry} (w : Hotspots.World) : Hotspots.World :=
  (Hotspots.load_crime_data
     (Hotspots.log (Hotspots.Text "Loading crime data...")
        (Hotspots.load_chicago_neighborhoods
           (Hotspots.log (Hotspots.Text "Loading neighborhood boundaries...") w)).2)).2.

(** The row of the annotated frame for a polygon: the polygon, its count
    and its density. *)
Definition annotated `{Geometry} (crime_data : list Hotspots.CrimeRow)
    (neighborhood : Hotspots.Feature) : Hotspots.Feature * Z * float :=
  (neighborhood,
   Z.of_nat (Hotspots.points_within crime_data neighborhood),
   (float_of_Z (Z.of_nat (Hotspots.points_within crime_data neighborhood))
    / area (Hotspots.feature_geometry neighborhood) * 1e7)%float).

(** The incident frame [load_crime_data] returns for a table: a row for
    each table row with both coordinates, in the order of the table. *)
Definition incident_frame `{Geometry} (table : list Homicide) : list Hotspots.CrimeRow :=
  map Hotspots.crime_row (filter (λ r, located r = true) table).

(** The full document of a boundary set and a table: the annotated frame
    of the boundary set, the least and the greatest of its densities, and
    the point [[Latitude, Longitude]] of every row of the incident
    frame. *)
Definition full_document `{Geometry} (neighborhoods : list Hotspots.Feature)
    (table : list Homicide) : Hotspots.Document :=
  let rows := map (annotated (incident_frame table)) neighborhoods in
  Hotspots.mkDocument rows (series_min (map snd rows)) (series_max (map snd rows))
    (map (λ c, (cell_value (Hotspots.crime_Latitude c),
                cell_value (Hotspots.crime_Longitude c)))
         (incident_frame table)).

(** ** pandas operations on columns *)

(** A Series is the list of its (index label, value) pairs, in order. *)

(** The distinct values of a column, in order of first appearance. *)
Fixpoint uniques `{EqDecision K} (values : list K) : list K :=
  match values with
  | [] => []
  | x :: rest => x :: filter (λ y, y ≠ x) (uniques rest)
  end.

(** How many cells of a column hold [k]. *)
Definition occurrences `{EqDecision K} (k : K) (values : list K) : Z :=
  Z.of_nat (length (filter (λ y, y = k) values)).

(** Larger counts first. *)
Definition count_desc {K} (a b : K * Z) : Prop := (b.2 ≤ a.2)%Z.

#[global] Instance count_desc_dec {K} : RelDecision (@count_desc K).
Proof. intros a b. unfold count_desc. apply _. Defined.

(** [column.value_counts()]: null cells are dropped, each distinct value
    is paired with the number of its occurrences, and the pairs are
    sorted by decreasing count (tied values in order of first
    appearance). *)
Definition value_counts `{EqDecision K} (column : list (option K)) : list (K * Z) :=
  let values := omap id column in
  sort_by count_desc (map (λ k, (k, occurrences k values)) (uniques values)).

(** [series[label]] as [reindex] reads it: the value at the label, if the
    label is in the index. *)
Fixpoint series_get `{EqDecision K} {V} (label : K) (series : list (K * V)) : option V :=
  match series with
  | [] => None
  | (k, v) :: rest => if decide (k = label) then Some v else series_get label rest
  end.

(** [series.reindex(labels)]: one entry per label, in the order of
    [labels]; a label missing from the series gets NaN ([None]). *)
Definition reindex `{EqDecision K} {V} (labels : list K) (series : list (K * V))
  : list (K * option V) :=
  map (λ label, (label, series_get label series)) labels.

(** Smaller index labels first. *)
Definition index_asc {V} (a b : Z * V) : Prop := (a.1 ≤ b.1)%Z.

#[global] Instance index_asc_dec {V} : RelDecision (@index_asc V).
Proof. intros a b. unfold index_asc. apply _. Defined.

(** [series.sort_index()] *)
Definition sort_index {V} (series : list (Z * V)) : list (Z * V) :=
  sort_by index_asc series.

(** ** Timestamp accessors *)

(** Days from 1970-01-01 to a civil date (proleptic Gregorian). *)
Definition days_from_civil (y m d : Z) : Z :=
  (let y' := if m <=? 2 then y - 1 else y in
   let era := y' / 400 in
   let yoe := y' - era * 400 in
   let doy := (153 * (m + (if 2 <? m then -3 else 9)) + 2) / 5 + d - 1 in
   let doe := yoe * 365 + yoe / 4 - yoe / 100 + doy in
   era * 146097 + doe - 719468)%Z.

(** [Timestamp.dayofweek]: Monday is 0 and Sunday is 6. *)
Definition dayofweek (t : Timestamp) : Z :=
  ((days_from_civil (ts_year t) (ts_month t) (ts_day t) + 3) mod 7)%Z.

Definition day_names : list string :=
  ["Monday"; "Tuesday"; "Wednesday"; "Thursday"; "Friday"; "Saturday"; "Sunday"].

Definition month_names : list string :=
  ["January"; "February"; "March"; "April"; "May"; "June"; "July"; "August";
   "September"; "October"; "November"; "December"].

(** [Timestamp.day_name()] *)
Definition ts_day_name (t : Timestamp) : string :=
  default "" (day_names !! Z.to_nat (dayofweek t)).

(** [Timestamp.month_name()] *)
Definition ts_month_name (t : Timestamp) : string :=
  default "" (month_names !! Z.to_nat (ts_month t - 1)).

(** ** [main.py]: the dashboard pipeline *)

Module Dashboard.

(** A row of the frame [load_data] returns: the table row, the [Date]
    column after [pd.to_datetime] ([None] is NaT) and the four derived
    columns.  The three [strftime] columns of the query are never read
    and are left out. *)
Record Incident := mkIncident {
  row : Homicide;
  date : option Timestamp;
  day_name : option string;
  hour : option Z;
  month_name : option string;
  season : string;
}.

(** The lambda of [load_data], applied to a cell of [dt.month]; the cell
    of a NaT date is NaN ([None]), which is in none of the lists. *)
Definition season_of_month (x : option Z) : string :=
  match x with
  | Some x =>
      if bool_decide (x ∈ [12; 1; 2]) then "Winter"
      else if bool_decide (x ∈ [3; 4; 5]) then "Spring"
      else if bool_decide (x ∈ [6; 7; 8]) then "Summer"
      else "Fall"
  | None => "Fall"
  end.

(** The derived columns of one row. *)
Definition derive (r : Homicide) (d : option Timestamp) : Incident :=
  {| row := r;
     date := d;
     day_name := ts_day_name <$> d;
     hour := ts_hour <$> d;
     month_name := ts_month_name <$> d;
     season := season_of_month (ts_month <$> d) |}.

(** [pd.to_datetime] on a column, from the reading of each cell that the
    table records: the first text that the call cannot read raises. *)
Definition to_datetime_cell (c : date_cell) : outcome (option Timestamp) :=
  match c with
  | DateNull => Returns None
  | DateText _ (Some t) => Returns (Some t)
  | DateText text None =>
      Raises (Exception ("Unknown datetime string format, unable to parse: " ++ text))
  end.

Fixpoint to_datetime (column : list date_cell) : outcome (list (option Timestamp)) :=
  match column with
  | [] => Returns []
  | c :: rest =>
      match to_datetime_cell c with
      | Raises e => Raises e
      | Returns d =>
          match to_datetime rest with
          | Raises e => Raises e
          | Returns ds => Returns (d :: ds)
          end
      end
  end.

(** A layer is a named feature group of one year and one kind; it is
    modelled by the rows it draws: a marker (location, pop-up) per row in
    a cluster layer, a point [[Latitude, Longitude]] per row in a
    heat-map layer. *)
Inductive layer_kind := Cluster | Heatmap.

Record Layer := mkLayer {
  layer_name : string;
  kind : layer_kind;
  layer_rows : list Incident;
}.

(** The HTML children the script adds to the map's root. *)
Inductive Element :=
  | ClickScript (layername : string)
  | ControlPanel.

(** The folium map object: the overlay layers and the elements in the
    order they were added, and whether a layer control was added. *)
Record Map := mkMap {
  layers : list Layer;
  elements : list Element;
  layer_control : bool;
}.

Definition initialize_map : Map := mkMap [] [] false.

(** The four chart datasets of [create_analytics_html], as (label, value)
    pairs in the order they are drawn.  A NaN value is [None]. *)
Record Analytics := mkAnalytics {
  fig_dow : list (string * option Z);
  fig_location : list (string * Z);
  fig_time : list (string * Z);
  fig_season : list (string * Z);
}.

Record Document := mkDocument {
  map_html : Map;
  analytics_html : Analytics;
}.

(** What a file of the working directory holds: a saved dashboard or a
    database. *)
Inductive File :=
  | Html (d : Document)
  | Database.

Record World := mkWorld {
  database : exn + list Homicide;
  files : gmap string File;
  stdout : list string;
  sql_queries : nat;
}.

(** The three ways a run changes the world.  A query connects first, so
    the database file exists afterwards. *)
Definition log (s : string) (w : World) : World :=
  mkWorld (database w) (files w) (stdout w ++ [s]) (sql_queries w).

Definition count_query (w : World) : World :=
  mkWorld (database w) (connect Database (files w)) (stdout w) (S (sql_queries w)).

Definition write_file (name : string) (f : File) (w : World) : World :=
  mkWorld (database w) (<[name := f]> (files w)) (stdout w) (sql_queries w).

Definition print (s : string) : M World unit :=
  λ w, (Returns (), log s w).

(** [sqlite3.connect], [pd.read_sql_query] over the table with the row
    condition [cond], [conn.close()] *)
Definition read_sql_query (cond : Homicide → bool) : M World (list Homicide) :=
  λ w, match database w with
       | inl e => (Raises e, count_query w)
       | inr table => (Returns (filter (λ r, cond r = true) table), count_query w)
       end.

(** An outcome as a computation that leaves the world alone. *)
Definition lift {A} (o : outcome A) : M World A := λ w, (o, w).

Definition load_data : M World (list Incident) :=
  (let* data := read_sql_query located in
   let* dates := lift (to_datetime (map Date data)) in
   ret (zip_with derive data dates))%run.

(** [data[data['Year'] == year]] *)
Definition year_data (data : list Incident) (year : Z) : list Incident :=
  filter (λ r, Year (row r) = Some year) data.

(** One turn of the loop of [create_layers]. *)
Definition add_year_layers (data : list Incident)
    (state : gmap string Layer * gmap string Layer * Map) (year : Z)
  : gmap string Layer * gmap string Layer * Map :=
  let '(cluster_layers, heatmap_layers, map_object) := state in
  let cluster_layer :=
    mkLayer ("cluster_year_" ++ pretty year) Cluster (year_data data year) in
  let heatmap_layer :=
    mkLayer ("heatmap_year_" ++ pretty year) Heatmap (year_data data year) in
  let map_object :=
    mkMap (layers map_object ++ [cluster_layer; heatmap_layer])
          (elements map_object ++ [ClickScript ("heatmap_year_" ++ pretty year)])
          (layer_control map_object) in
  (<[pretty year := cluster_layer]> cluster_layers,
   <[pretty year := heatmap_layer]> heatmap_layers,
   map_object).

(** [create_layers(data, map_object)]: the two dictionaries it returns
    and the map object it has added to. *)
Definition create_layers (data : list Incident) (map_object : Map)
  : gmap string Layer * gmap string Layer * Map :=
  foldl (add_year_layers data) (∅, ∅, map_object) (seqZ 2020 5).

(** [f"{str(h%12 or 12)} {'AM' if h<12 else 'PM'}" for h in range(24)] *)
Definition hour_labels : list string :=
  map (λ h : Z,
         pretty (if bool_decide (h `mod` 12 = 0) then 12 else h `mod` 12)
         ++ " " ++ (if bool_decide (h < 12) then "AM" else "PM"))
      (seqZ 0 24).

(** [series.index = labels]: the lengths must agree. *)
Definition set_index {K V} (labels : list string) (series : list (K * V))
  : outcome (list (string * V)) :=
  if decide (length series = length labels)
  then Returns (zip labels (map snd series))
  else Raises (Exception
         ("Length mismatch: Expected axis has " ++ pretty (length series)
          ++ " elements, new values have " ++ pretty (length labels)
          ++ " elements")).

(** The number of incidents of a collection that fell on a day of the
    week, and in a season: what the charts are compared with. *)
Definition incidents_on (data : list Incident) (d : string) : Z :=
  Z.of_nat (length (filter (λ r, day_name r = Some d) data)).

Definition incidents_in_season (data : list Incident) (s : string) : Z :=
  Z.of_nat (length (filter (λ r, season r = s) data)).

(** The four aggregates of [create_analytics_html]. *)
Definition dow_counts (data : list Incident) : list (string * option Z) :=
  reindex day_names (value_counts (map day_name data)).

Definition location_counts (data : list Incident) : list (string * Z) :=
  take 10 (value_counts (map (λ r, Location_Description (row r)) data)).

Definition hour_counts (data : list Incident) : outcome (list (string * Z)) :=
  set_index hour_labels (sort_index (value_counts (map hour data))).

Definition season_counts (data : list Incident) : list (string * Z) :=
  value_counts (map (λ r, Some (season r)) data).

Definition create_analytics_html (data : list Incident) : outcome Analytics :=
  let dow_counts := dow_counts data in
  let location_counts := location_counts data in
  match hour_counts data with
  | Raises e => Raises e
  | Returns hour_counts =>
      let season_counts := season_counts data in
      Returns (mkAnalytics dow_counts location_counts hour_counts season_counts)
  end.

Definition add_control_panel (map_object : Map) : Map :=
  mkMap (layers map_object) (elements map_object ++ [ControlPanel])
        (layer_control map_object).

Definition add_layer_control (map_object : Map) : Map :=
  mkMap (layers map_object) (elements map_object) true.

(** What [save_dashboard] uses of folium: rendering the map, with the
    exception it raises, if any. *)
Class Folium := {
  render : Map → option exn;
}.

Section Run.
Context `{F : Folium}.

(** [save_dashboard]: the map is rendered, then the file is opened and
    the document written, then the line is printed. *)
Definition save_dashboard (map_object : Map) (analytics : Analytics)
    (filename : string) : M World unit :=
  ((λ w, match render map_object with
         | Some e => (Raises e, w)
         | None => (Returns (), w)
         end) ;;
   (λ w, (Returns (),
          write_file filename (Html (mkDocument map_object analytics)) w)) ;;
   print ("Dashboard has been saved as " ++ filename))%run.

Definition main : M World unit :=
  (print "Loading data..." ;;
   let* data := load_data in
   print "Creating map..." ;;
   let chicago_map := initialize_map in
   let '(cluster_layers, heatmap_layers, chicago_map) := create_layers data chicago_map in
   let chicago_map := add_layer_control chicago_map in
   let chicago_map := add_control_panel chicago_map in
   print "Creating analytics..." ;;
   let* analytics := lift (create_analytics_html data) in
   print "Saving dashboard..." ;;
   save_dashboard chicago_map analytics "chicago_homicides_dashboard.html" ;;
   print "Done! Open chicago_homicides_dashboard.html in your web browser to view the dashboard.")%run.

End Run.

(** The number of incidents of a collection at an hour of the day, and
    at a kind of location. *)
Definition incidents_at_hour (data : list Incident) (h : Z) : Z :=
  Z.of_nat (length (filter (λ r, hour r = Some h) data)).

Definition incidents_at_location (data : list Incident) (place : string) : Z :=
  Z.of_nat (length (filter (λ r, Location_Description (row r) = Some place) data)).

(** The values of the options of the [yearSelect] element of
    [control_panel_html]. *)
Definition year_options : list string :=
  ["all"; "2020"; "2021"; "2022"; "2023"; "2024"].

End Dashboard.

(** ** The client-side script of [add_control_panel]

    The script sees the overlay entries of the layer control, each a
    label and a checkbox, and keeps one flag of its own.  A click on a
    checkbox toggles it (and with it the layer on the map). *)

Module ControlPanel.

(** An entry: the text of its label, trimmed, and its checkbox. *)
Record Overlay := mkOverlay {
  layerName : string;
  checked : bool;
}.

#[global] Instance Overlay_eq_dec : EqDecision Overlay.
Proof. solve_decision. Defined.

(** The page: the overlay entries in the order of the control, the
    variable [isHeatmapMode], the value of [yearSelect] and the text of
    [toggleButton]. *)
Record Page := mkPage {
  overlays : list Overlay;
  isHeatmapMode : bool;
  yearSelect : string;
  toggleButton : string;
}.

(** [s.endsWith(suffix)] and [s.startsWith(p)] *)
Definition endsWith (s suffix : string) : bool :=
  (String.length suffix <=? String.length s)%nat
  && String.eqb
       (String.substring (String.length s - String.length suffix)
                         (String.length suffix) s)
       suffix.

Definition startsWith (s p : string) : bool := String.prefix p s.

(** [checkbox.click()] *)
Definition click (o : Overlay) : Overlay :=
  mkOverlay (layerName o) (negb (checked o)).

(** The value of [shouldBeVisible] in the body of the [forEach] of
    [updateLayers]. *)
Definition shouldBeVisible (isHeatmapMode : bool) (selectedYear layerName : string)
  : bool :=
  let isHeatmapLayer := startsWith layerName "heatmap_" in
  let isClusterLayer := startsWith layerName "cluster_" in
  let yearMatch := String.eqb selectedYear "all" || endsWith layerName selectedYear in
  yearMatch && ((isHeatmapMode && isHeatmapLayer)
                || (negb isHeatmapMode && isClusterLayer)).

(** The body of the [forEach] of [updateLayers]. *)
Definition update_overlay (isHeatmapMode : bool) (selectedYear : string)
    (layer : Overlay) : Overlay :=
  let shouldBeVisible := shouldBeVisible isHeatmapMode selectedYear (layerName layer) in
  if shouldBeVisible && negb (checked layer) then click layer
  else if negb shouldBeVisible && checked layer then click layer
  else layer.

Definition updateLayers (selectedYear : string) (page : Page) : Page :=
  mkPage (map (update_overlay (isHeatmapMode page) selectedYear) (overlays page))
         (isHeatmapMode page) (yearSelect page) (toggleButton page).

Definition toggleViewMode (page : Page) : Page :=
  let page :=
    mkPage (overlays page) (negb (isHeatmapMode page)) (yearSelect page)
           (toggleButton page) in
  let selectedYear := yearSelect page in
  let page := updateLayers selectedYear page in
  mkPage (overlays page) (isHeatmapMode page) (yearSelect page)
         (if isHeatmapMode page then "Switch to Cluster View"
          else "Switch to Heatmap View").

Definition filterByYear (page : Page) : Page :=
  let selectedYear := yearSelect page in
  updateLayers selectedYear page.

(** Choosing an option of [yearSelect] and pressing "Update Year". *)
Definition select_year (option : string) (page : Page) : Page :=
  filterByYear (mkPage (overlays page) (isHeatmapMode page) option (toggleButton page)).

(** The layers of a map that a page shows: those whose name is the label
    of a checked overlay. *)
Definition shown (map_object : Dashboard.Map) (page : Page) : list Dashboard.Layer :=
  filter (λ l, mkOverlay (Dashboard.layer_name l) true ∈ overlays page)
         (Dashboard.layers map_object).

End ControlPanel.

(** ** Sample data

    Coordinates are binary fractions of a degree, so that the decimal
    literals below are exact. *)

Module Sample.

(** Three rectangles around the centre of Chicago: [loop] and [north]
    overlap, [south] touches [loop] along the edge [y = 41.75], and
    [flat] has no width. *)
Definition loop : Box := mkBox (-87.75) 41.75 (-87.5) 42.
Definition north : Box := mkBox (-87.625) 41.875 (-87.375) 42.125.
Definition south : Box := mkBox (-87.75) 41.5 (-87.5) 41.75.
Definition flat : Box := mkBox (-87.5) 41.5 (-87.5) 41.75.

Definition feature (name : string) (b : Box) : @Hotspots.Feature BoxGeometry :=
  @Hotspots.mkFeature BoxGeometry name b.

Definition monday_noon : Timestamp := mkTimestamp 2024 1 1 12 0 0.
Definition summer_night : Timestamp := mkTimestamp 2019 7 6 23 30 0.

(** [h1] lies in the overlap of [loop] and [north], [h2] in [loop] only,
    [h3] on the edge shared by [loop] and [south], and [h4] has no
    latitude. *)
Definition h1 : Homicide :=
  mkHomicide (Some 41.9375%float) (Some (-87.5625)%float)
    (DateText "2024-01-01 12:00:00" (Some monday_noon)) (Some 2024)
    "JH100001" "FIRST DEGREE MURDER" (Some "STREET").
Definition h2 : Homicide :=
  mkHomicide (Some 41.8125%float) (Some (-87.6875)%float)
    (DateText "2019-07-06 23:30:00" (Some summer_night)) (Some 2019)
    "JC200002" "FIRST DEGREE MURDER" (Some "APARTMENT").
Definition h3 : Homicide :=
  mkHomicide (Some 41.75%float) (Some (-87.625)%float)
    DateNull None "JH300003" "FIRST DEGREE MURDER" None.
Definition h4 : Homicide :=
  mkHomicide None (Some (-87.625)%float)
    (DateText "2024-01-01 12:00:00" (Some monday_noon)) (Some 2024)
    "JH400004" "FIRST DEGREE MURDER" (Some "STREET").

Definition table : list Homicide := [h1; h2; h3; h4].

Definition crime_data : list Hotspots.CrimeRow :=
  map Hotspots.crime_row [h1; h2; h3].

(** Nine incidents of January 2024, of which the first was a Monday:
    two fell on a Monday, two on a Wednesday and one on each other day. *)
Definition on_day (d : Z) : Dashboard.Incident :=
  Dashboard.derive h1 (Some (mkTimestamp 2024 1 d 12 0 0)).

Definition week : list Dashboard.Incident :=
  map on_day [3; 1; 2; 4; 8; 5; 6; 7; 10].

(** The frame of the three located sample rows: [h1] is of 2024, [h2]
    of 2019 and [h3] has neither date nor year. *)
Definition incident_2024 : Dashboard.Incident :=
  Dashboard.derive h1 (Some monday_noon).
Definition incident_2019 : Dashboard.Incident :=
  Dashboard.derive h2 (Some summer_night).
Definition incident_undated : Dashboard.Incident :=
  Dashboard.derive h3 None.

Definition incidents : list Dashboard.Incident :=
  [incident_2024; incident_2019; incident_undated].

(** Twenty-seven incidents of one day, at least one in every hour. *)
Definition at_hour (h : Z) : Dashboard.Incident :=
  Dashboard.derive h1 (Some (mkTimestamp 2024 1 1 h 0 0)).

Definition around_the_clock : list Dashboard.Incident :=
  map at_hour (seqZ 0 24 ++ [13; 13; 0]).

(** A table with one incident in every hour of a day: the row of hour
    [h] has the date text "2024-01-01 hh:00:00". *)
Definition two_digits (n : Z) : string :=
  (if bool_decide (n < 10) then "0" else "") ++ pretty n.

Definition clock_row (h : Z) : Homicide :=
  mkHomicide (Some 41.875%float) (Some (-87.625)%float)
    (DateText ("2024-01-01 " ++ two_digits h ++ ":00:00")
              (Some (mkTimestamp 2024 1 1 h 0 0)))
    (Some 2024) ("JH0000" ++ two_digits h) "FIRST DEGREE MURDER" (Some "STREET").

Definition clock_table : list Homicide := map clock_row (seqZ 0 24).

(** A page whose layer control lists the layers of the sample incidents,
    all ticked. *)
Definition page : ControlPanel.Page :=
  ControlPanel.mkPage
    (map (λ l, ControlPanel.mkOverlay (Dashboard.layer_name l) true)
         (Dashboard.layers
            (Dashboard.create_layers incidents Dashboard.initialize_map).2))
    false "all" "Switch to Heatmap View".

(** The behaviour of folium and branca on the sample worlds.  The colour
    scale raises on a density that is NaN; the style function that calls
    it is tried on the first feature when the GeoJson layer is built, and
    applied to every feature when the map is rendered.  The tooltip reads
    its fields from the first feature when the map is rendered, and raises
    when there is none.  Nothing else raises. *)
Definition folium : @Hotspots.Folium BoxGeometry :=
  {| Hotspots.build_choropleth := λ rows _ _,
       match rows with
       | row :: _ =>
           if is_nan row.2 then Some (Exception "Thresholds are not sorted.")
           else None
       | [] => None
       end;
     Hotspots.build_heatmap := λ _, None;
     Hotspots.render := λ d,
       match Hotspots.choropleth d with
       | [] => Some (Exception "list index out of range")
       | _ =>
           if existsb (λ row, is_nan row.2) (Hotspots.choropleth d)
           then Some (Exception "Thresholds are not sorted.")
           else None
       end |}.

Definition dashboard_folium : Dashboard.Folium :=
  {| Dashboard.render := λ _, None |}.

(** Worlds: the database holds [table] or does not exist, and the
    boundary endpoint answers with [loop] and [north], or with [loop] and
    [flat], or is unreachable.  The directory holds the database file, or
    nothing. *)
Definition no_table : exn := Exception "no such table: homicides".
Definition unreachable : exn := Exception "Connection refused".

Definition boundaries : list (@Hotspots.Feature BoxGeometry) :=
  [feature "LOOP" loop; feature "NEAR NORTH SIDE" north].

Definition disk : gmap string (@Hotspots.File BoxGeometry) :=
  {[database_file := Hotspots.Database]}.

Definition online : @Hotspots.World BoxGeometry :=
  Hotspots.mkWorld (inr boundaries) (inr table) disk [] 0 0.
Definition degenerate : @Hotspots.World BoxGeometry :=
  Hotspots.mkWorld (inr [feature "LOOP" loop; feature "FLAT" flat]) (inr table)
                   disk [] 0 0.
Definition offline : @Hotspots.World BoxGeometry :=
  Hotspots.mkWorld (inl unreachable) (inr table) disk [] 0 0.
Definition all_down : @Hotspots.World BoxGeometry :=
  Hotspots.mkWorld (inl unreachable) (inl no_table) ∅ [] 0 0.

Definition dashboard_disk : gmap string Dashboard.File :=
  {[database_file := Dashboard.Database]}.

Definition dashboard_world : Dashboard.World :=
  Dashboard.mkWorld (inr table) dashboard_disk [] 0.
Definition dashboard_no_database : Dashboard.World :=
  Dashboard.mkWorld (inl no_table) ∅ [] 0.
Definition dashboard_full_day : Dashboard.World :=
  Dashboard.mkWorld (inr clock_table) dashboard_disk [] 0.

End Sample.

(* ===================================================================== *)
(** * Part II: properties                                                *)
(* ===================================================================== *)

Local Open Scope list_scope.
Local Open Scope Z_scope.

(** ** Lists, counting and columns *)

Section Counting.
Context {A : Type}.

Lemma sum_bool_from (bs : list bool) (start : Z) :
  foldl (λ acc (b : bool), acc + (if b then 1 else 0)) start bs
  = start + sum_bool bs.
Proof.
  unfold sum_bool. revert start.
  induction bs as [|b bs IH]; intros start; simpl.
  - lia.
  - rewrite IH, (IH (0 + _)). lia.
Qed.

Lemma sum_bool_cons (b : bool) (bs : list bool) :
  sum_bool (b :: bs) = (if b then 1 else 0) + sum_bool bs.
Proof. unfold sum_bool at 1. simpl. apply sum_bool_from. Qed.

(** Summing the truth values of a test counts the elements passing it. *)
Lemma sum_bool_filter (f : A → bool) (l : list A) :
  sum_bool (map f l) = Z.of_nat (length (filter (λ x, f x = true) l)).
Proof.
  induction l as [|x l IH]; [done|].
  cbn [map]. rewrite sum_bool_cons, IH, filter_cons.
  destruct (f x) eqn:E; case_decide; try congruence; cbn [length]; lia.
Qed.

(** The loop "for idx, x in rows: column[idx] = f x", started on the
    rows from position [k] on, rewrites the column from [k] on. *)
Lemma foldl_insert_from {B} (f : A → B) (l : list A) (k : nat) (column : list B) :
  length column = (k + length l)%nat →
  foldl (λ col '(idx, x), <[idx := f x]> col) column (imap (λ i x, ((k + i)%nat, x)) l)
  = take k column ++ map f l.
Proof.
  revert k column. induction l as [|x l IH]; intros k column Hlen; simpl in *.
  - rewrite app_nil_r, take_ge; [done | lia].
  - replace (k + 0)%nat with k by lia.
    erewrite imap_ext; [rewrite (IH (S k)) | intros; simpl; f_equal; lia].
    + rewrite (take_S_r _ _ (f x)).
      * rewrite take_insert_ge by lia. by rewrite <- app_assoc.
      * apply list_lookup_insert_eq. lia.
    + rewrite length_insert. lia.
Qed.

Lemma foldl_insert_rows {B} (f : A → B) (l : list A) (column : list B) :
  length column = length l →
  foldl (λ col '(idx, x), <[idx := f x]> col) column (imap pair l) = map f l.
Proof.
  intros Hlen. apply (foldl_insert_from f l 0 column Hlen).
Qed.

(** Counting the pairs of a relation by rows or by columns. *)
Lemma count_pairs_swap {B} (r : A → B → bool) (la : list A) (lb : list B) :
  sum_list_with (λ b, length (filter (λ a, r a b = true) la)) lb
  = sum_list_with (λ a, length (filter (λ b, r a b = true) lb)) la.
Proof.
  induction la as [|a la IH]; simpl.
  - induction lb as [|b lb IHb]; simpl; [done|]. by rewrite IHb.
  - rewrite <- IH. clear IH.
    induction lb as [|b lb IHb]; simpl; [done|].
    rewrite !filter_cons. rewrite IHb.
    destruct (decide (r a b = true)); simpl; lia.
Qed.

(** A test that at most one position of a list passes. *)
Lemma filter_at_most_one (P : A → Prop) `{∀ x, Decision (P x)} (l : list A) :
  (∀ i j x y, l !! i = Some x → l !! j = Some y → P x → P y → i = j) →
  (length (filter P l) ≤ 1)%nat.
Proof.
  induction l as [|x l IH]; intros Hone; simpl; [lia|].
  rewrite filter_cons. destruct (decide (P x)) as [Hx|Hx].
  - assert (filter P l = []) as ->; [|simpl; lia].
    apply elem_of_nil_inv. intros y [Py Hy]%list_elem_of_filter.
    apply list_elem_of_lookup in Hy as [j Hj].
    discriminate (Hone 0%nat (S j) x y eq_refl Hj Hx Py).
  - apply IH. intros i j a b Hi Hj Pa Pb.
    by injection (Hone (S i) (S j) a b Hi Hj Pa Pb).
Qed.

(** A sum of numbers that are 0 or 1 is at most the number of terms, and
    reaches it exactly when every term is 1. *)
Lemma sum_of_flags (f : A → nat) (l : list A) :
  (∀ x, x ∈ l → (f x ≤ 1)%nat) →
  (sum_list_with f l ≤ length l)%nat
  ∧ (sum_list_with f l = length l ↔ ∀ x, x ∈ l → f x = 1%nat).
Proof.
  induction l as [|x l IH]; intros Hflag; simpl.
  - split; [lia|]. split; [|done]. intros _ x Hx. by apply elem_of_nil in Hx.
  - destruct IH as [IHle IHeq]; [intros y Hy; apply Hflag; by right|].
    pose proof (Hflag x (list_elem_of_here _ _)) as Hx.
    split; [lia|]. split.
    + intros Hsum y Hy. apply elem_of_cons in Hy as [->|Hy]; [lia|].
      apply IHeq; [lia|done].
    + intros Hall. rewrite (Hall x (list_elem_of_here _ _)).
      f_equal. apply IHeq. intros y Hy. apply Hall. by right.
Qed.

Lemma insert_by_Permutation (R : A → A → Prop) `{RelDecision A A R} (x : A) (l : list A) :
  insert_by R x l ≡ₚ x :: l.
Proof.
  induction l as [|y l IH]; simpl; [done|].
  case_decide; [done|]. rewrite IH. apply Permutation_swap.
Qed.

(** Sorting rearranges. *)
Lemma sort_by_Permutation (R : A → A → Prop) `{RelDecision A A R} (l : list A) :
  sort_by R l ≡ₚ l.
Proof.
  unfold sort_by. induction l as [|x l IH]; simpl; [done|].
  by rewrite insert_by_Permutation, IH.
Qed.

Lemma column_sum_of_nat (f : A → nat) (l : list A) :
  column_sum (map (λ x, Z.of_nat (f x)) l) = Z.of_nat (sum_list_with f l).
Proof.
  unfold column_sum. induction l as [|x l IH]; simpl; [done|]. rewrite IH. lia.
Qed.

End Counting.

(** ** The spatial aggregator of [hotspots.py] *)

Section Aggregator.
Context `{Geometry}.
Import Hotspots.

(** The loop fills the column row by row with the counts. *)
Lemma crime_counts_map (neighborhoods : list Feature) (crime_data : list CrimeRow) :
  crime_counts neighborhoods crime_data
  = map (λ nb, Z.of_nat (points_within crime_data nb)) neighborhoods.
Proof.
  unfold crime_counts, points_within.
  rewrite (foldl_insert_rows
             (λ nb, sum_bool (map (λ c, within (geometry c) (feature_geometry nb))
                                  crime_data))).
  - apply map_ext. intros nb. apply sum_bool_filter.
  - apply length_replicate.
Qed.

(** C1: for every polygon of the boundary set (row [idx] of the frame),
    the [crime_count] cell of that row is exactly the number of loaded
    incident points for which the containment test [within] of the
    geometry library holds against that polygon's geometry. *)
Theorem crime_count_exact (neighborhoods : list Feature) (crime_data : list CrimeRow)
    (idx : nat) (neighborhood : Feature) :
  neighborhoods !! idx = Some neighborhood →
  crime_counts neighborhoods crime_data !! idx
  = Some (Z.of_nat (length
            (filter (λ c, within (geometry c) (feature_geometry neighborhood) = true)
                    crime_data))).
Proof.
  intros Hrow. rewrite crime_counts_map, list_lookup_fmap, Hrow. done.
Qed.

(** C5: for every polygon, the [crime_density] cell is the count cell,
    read as a float, divided by the polygon's area and then multiplied by
    the constant [1e7]; the formula is applied whatever the area is, zero
    included. *)
Theorem crime_density_formula (neighborhoods : list Feature)
    (crime_data : list CrimeRow) (idx : nat) (neighborhood : Feature) :
  neighborhoods !! idx = Some neighborhood →
  crime_density (crime_counts neighborhoods crime_data) neighborhoods !! idx
  = Some (float_of_Z (Z.of_nat (points_within crime_data neighborhood))
          / area (feature_geometry neighborhood) * 1e7)%float.
Proof.
  intros Hrow. unfold crime_density.
  rewrite lookup_zip_with, crime_counts_map, list_lookup_fmap, Hrow. done.
Qed.

(** The counts add up to the number of (point, polygon) pairs for which
    the containment test holds. *)
Lemma crime_counts_sum (neighborhoods : list Feature) (crime_data : list CrimeRow) :
  column_sum (crime_counts neighborhoods crime_data)
  = Z.of_nat (sum_list_with (polygons_around neighborhoods) crime_data).
Proof.
  rewrite crime_counts_map, column_sum_of_nat. f_equal.
  apply (count_pairs_swap
           (λ c nb, within (geometry c) (feature_geometry nb)) crime_data neighborhoods).
Qed.

Lemma polygons_around_pos (neighborhoods : list Feature) (c : CrimeRow) :
  (0 < polygons_around neighborhoods c)%nat
  ↔ ∃ nb, nb ∈ neighborhoods ∧ within (geometry c) (feature_geometry nb) = true.
Proof.
  unfold polygons_around. split.
  - intros Hpos.
    destruct (filter _ neighborhoods) as [|nb rest] eqn:E; [simpl in Hpos; lia|].
    assert (nb ∈ filter (λ nb, within (geometry c) (feature_geometry nb) = true)
                   neighborhoods) as Hin by (rewrite E; left).
    apply list_elem_of_filter in Hin as [Hw Hin]. eauto.
  - intros (nb & Hin & Hw).
    assert (nb ∈ filter (λ nb, within (geometry c) (feature_geometry nb) = true)
                   neighborhoods) as Hf by (by apply list_elem_of_filter).
    destruct (filter _ neighborhoods); [by apply elem_of_nil in Hf | simpl; lia].
Qed.

(** C4, amended: when no incident point is within two rows of the
    boundary set, the counts add up to at most the number of incident
    points, and to exactly that number when and only when every point is
    within some polygon. *)
Theorem counts_sum_le_total (neighborhoods : list Feature) (crime_data : list CrimeRow) :
  (∀ c i j a b,
      c ∈ crime_data →
      neighborhoods !! i = Some a → neighborhoods !! j = Some b →
      within (geometry c) (feature_geometry a) = true →
      within (geometry c) (feature_geometry b) = true →
      i = j) →
  column_sum (crime_counts neighborhoods crime_data) ≤ Z.of_nat (length crime_data)
  ∧ (column_sum (crime_counts neighborhoods crime_data) = Z.of_nat (length crime_data)
     ↔ ∀ c, c ∈ crime_data →
            ∃ nb, nb ∈ neighborhoods
                  ∧ within (geometry c) (feature_geometry nb) = true).
Proof.
  intros Hapart. rewrite crime_counts_sum.
  assert (∀ c, c ∈ crime_data → (polygons_around neighborhoods c ≤ 1)%nat) as Hflag.
  { intros c Hc. unfold polygons_around.
    apply filter_at_most_one. intros i j a b. by apply Hapart. }
  destruct (sum_of_flags (polygons_around neighborhoods) crime_data Hflag)
    as [Hle Heq].
  split; [lia|]. split.
  - intros Hsum c Hc. apply polygons_around_pos.
    rewrite (proj1 Heq); [lia | lia | done].
  - intros Hall. f_equal. apply Heq. intros c Hc.
    specialize (Hflag c Hc). apply Hall, polygons_around_pos in Hc. lia.
Qed.

End Aggregator.

(** The count of [loop] over the three located sample incidents: [h1] and
    [h2] are inside, [h3] is on its edge and is not counted. *)
Lemma crime_count_exact_witness :
  [Sample.feature "LOOP" Sample.loop; Sample.feature "NEAR NORTH SIDE" Sample.north]
    !! 0%nat = Some (Sample.feature "LOOP" Sample.loop)
  ∧ Hotspots.crime_counts
      [Sample.feature "LOOP" Sample.loop; Sample.feature "NEAR NORTH SIDE" Sample.north]
      Sample.crime_data !! 0%nat = Some 2.
Proof.
  split; [reflexivity|].
  exact (crime_count_exact (H := BoxGeometry)
           [Sample.feature "LOOP" Sample.loop;
            Sample.feature "NEAR NORTH SIDE" Sample.north]
           Sample.crime_data 0 (Sample.feature "LOOP" Sample.loop) eq_refl).
Defined.

(** The density of [loop] (area 1/16 square degree, two incidents) and of
    the rectangle without width (area zero, no incident: 0/0 is NaN). *)
Lemma crime_density_formula_witness :
  Hotspots.crime_density
    (Hotspots.crime_counts
       [Sample.feature "LOOP" Sample.loop; Sample.feature "FLAT" Sample.flat]
       Sample.crime_data)
    [Sample.feature "LOOP" Sample.loop; Sample.feature "FLAT" Sample.flat] !! 1%nat
  = Some nan.
Proof.
  exact (crime_density_formula (H := BoxGeometry)
           [Sample.feature "LOOP" Sample.loop; Sample.feature "FLAT" Sample.flat]
           Sample.crime_data 1 (Sample.feature "FLAT" Sample.flat) eq_refl).
Defined.

(** With the rectangles [loop] and [south], which share an edge only,
    the three sample incidents give the counts 2 and 0: [h3], on the
    shared edge, is counted nowhere. *)
Lemma counts_sum_le_total_witness :
  column_sum
    (Hotspots.crime_counts
       [Sample.feature "LOOP" Sample.loop; Sample.feature "SOUTH" Sample.south]
       Sample.crime_data)
  ≤ Z.of_nat (length Sample.crime_data).
Proof.
  refine (proj1 (counts_sum_le_total (H := BoxGeometry)
           [Sample.feature "LOOP" Sample.loop; Sample.feature "SOUTH" Sample.south]
           Sample.crime_data _)).
  intros c i j a b Hc Hi Hj Ha Hb.
  destruct i as [|[|i]], j as [|[|j]]; simplify_eq/=; try done;
    repeat (apply elem_of_cons in Hc as [->|Hc]); try (by apply elem_of_nil in Hc);
    vm_compute in Ha, Hb; discriminate.
Defined.

(** C4 as stated fails on overlapping polygons: the one incident [h1]
    lies in both [loop] and [north], so the counts add up to 2. *)
Lemma counts_sum_exceeds_total :
  column_sum
    (Hotspots.crime_counts
       [Sample.feature "LOOP" Sample.loop; Sample.feature "NEAR NORTH SIDE" Sample.north]
       [Hotspots.crime_row Sample.h1]) = 2
  ∧ ¬ (column_sum
         (Hotspots.crime_counts
            [Sample.feature "LOOP" Sample.loop;
             Sample.feature "NEAR NORTH SIDE" Sample.north]
            [Hotspots.crime_row Sample.h1])
       ≤ Z.of_nat (length [Hotspots.crime_row Sample.h1])).
Proof. split; [reflexivity | vm_compute; intros Hle; by apply Hle]. Qed.

(** ** The loaders *)

Section Loaders.
Import Dashboard.

Lemma to_datetime_length (column : list date_cell) (dates : list (option Timestamp)) :
  to_datetime column = Returns dates → length dates = length column.
Proof.
  revert dates. induction column as [|c column IH]; intros dates; simpl.
  - by intros [= <-].
  - destruct (to_datetime_cell c); [|done].
    destruct (to_datetime column); [|done].
    intros [= <-]. simpl. f_equal. by apply IH.
Qed.

(** [pd.to_datetime] returns when every text of the column is a date. *)
Lemma to_datetime_returns (column : list date_cell) :
  (∀ text, DateText text None ∉ column) →
  ∃ dates, to_datetime column = Returns dates.
Proof.
  induction column as [|c column IH]; intros Hdates; simpl; [eauto|].
  destruct IH as [dates ->].
  { intros text Hin. apply (Hdates text). by right. }
  destruct c as [|text [t|]]; simpl; eauto.
  destruct (Hdates text). by left.
Qed.

(** The derived frame keeps the rows of the query, in order. *)
Lemma row_zip_with_derive (data : list Homicide) (dates : list (option Timestamp)) :
  length dates = length data → map row (zip_with derive data dates) = data.
Proof.
  revert dates. induction data as [|r data IH]; intros [|d dates] Hlen;
    simplify_eq/=; [done|]. f_equal. by apply IH.
Qed.

Lemma located_coordinates (r : Homicide) :
  located r = true ↔ is_Some (Latitude r) ∧ is_Some (Longitude r).
Proof.
  unfold located. destruct (Latitude r), (Longitude r); split;
    (done || (intros [[? ?] [? ?]]; done) || (split; eauto)).
Qed.

Context `{Geometry}.

(** C3: when the table can be read, the incident loader of the
    choropleth pipeline returns one row per table row with both
    coordinates, so that every returned row has both coordinates and no
    row with a null latitude or longitude is among them; and whenever the
    loader of the dashboard returns, the rows of its frame are exactly
    the table rows with both coordinates.  The dashboard loader returns
    as soon as every date text of those rows is a date. *)
Theorem loaders_exclude_null_coordinates
    (hw : Hotspots.World) (dw : Dashboard.World) (table : list Homicide) :
  Hotspots.database hw = inr table →
  Dashboard.database dw = inr table →
  (∃ rows hw',
      Hotspots.load_crime_data hw = (Returns (Some rows), hw')
      ∧ rows = map Hotspots.crime_row (filter (λ r, located r = true) table)
      ∧ (∀ c, c ∈ rows →
              is_Some (Hotspots.crime_Latitude c) ∧ is_Some (Hotspots.crime_Longitude c))
      ∧ (∀ r, r ∈ table → Latitude r = None ∨ Longitude r = None →
              Hotspots.crime_row r ∉ rows))
  ∧ (∀ data dw',
        load_data dw = (Returns data, dw') →
        map row data = filter (λ r, located r = true) table
        ∧ (∀ i, i ∈ data →
                is_Some (Latitude (row i)) ∧ is_Some (Longitude (row i)))
        ∧ (∀ r, r ∈ table → Latitude r = None ∨ Longitude r = None →
                r ∉ map row data))
  ∧ ((∀ r text, r ∈ table → located r = true → Date r ≠ DateText text None) →
     ∃ data dw', load_data dw = (Returns data, dw')).
Proof.
  intros Hhw Hdw.
  assert (∀ r, r ∈ filter (λ r, located r = true) table →
               is_Some (Latitude r) ∧ is_Some (Longitude r)) as Hkept.
  { intros r [Hr _]%list_elem_of_filter. by apply located_coordinates. }
  assert (∀ r, Latitude r = None ∨ Longitude r = None →
               r ∉ filter (λ r, located r = true) table) as Hdropped.
  { intros r Hnull Hin. destruct (Hkept r Hin) as [[? Hla] [? Hlo]].
    destruct Hnull; congruence. }
  split; [|split].
  - eexists _, _. split; [|split; [reflexivity|split]].
    + unfold Hotspots.load_crime_data, try_except, bind, Hotspots.read_sql_query, ret.
      rewrite Hhw. reflexivity.
    + intros c (r & -> & Hr)%list_elem_of_fmap. by apply Hkept.
    + intros r _ Hnull (r' & Heq & Hr')%list_elem_of_fmap.
      destruct (Hkept r' Hr') as [[? Hla] [? Hlo]].
      apply (f_equal Hotspots.crime_Latitude) in Heq as Heq1.
      apply (f_equal Hotspots.crime_Longitude) in Heq as Heq2.
      simpl in Heq1, Heq2. destruct Hnull; congruence.
  - intros data dw'. unfold load_data, bind, read_sql_query, lift, ret.
    rewrite Hdw.
    destruct (to_datetime _) as [dates|e] eqn:Hdates; [|done].
    intros [= <- _]. apply to_datetime_length in Hdates.
    rewrite length_map in Hdates. rewrite row_zip_with_derive by done.
    split; [done|]. split.
    + intros i Hi. apply Hkept. rewrite <- (row_zip_with_derive _ dates) by done.
      apply list_elem_of_fmap. eauto.
    + intros r _. apply Hdropped.
  - intros Hparse. unfold load_data, bind, read_sql_query, lift, ret.
    rewrite Hdw.
    destruct (to_datetime_returns (map Date (filter (λ r, located r = true) table)))
      as [dates ->]; [|eauto].
    intros text (r & Heq & [Hr Hin]%list_elem_of_filter)%list_elem_of_fmap.
    by apply (Hparse r text).
Qed.

End Loaders.

(** On the sample table both loaders keep [h1], [h2] and [h3] and drop
    [h4], which has no latitude. *)
Lemma loaders_exclude_null_coordinates_witness :
  (∃ rows hw',
      Hotspots.load_crime_data Sample.online = (Returns (Some rows), hw')
      ∧ rows = map Hotspots.crime_row [Sample.h1; Sample.h2; Sample.h3])
  ∧ (∃ data dw',
        Dashboard.load_data Sample.dashboard_world = (Returns data, dw')
        ∧ map Dashboard.row data = [Sample.h1; Sample.h2; Sample.h3]).
Proof.
  destruct (loaders_exclude_null_coordinates (H := BoxGeometry)
              Sample.online Sample.dashboard_world Sample.table eq_refl eq_refl)
    as [(rows & hw' & Hload & Hrows & _) [Hdata Hreturns]].
  split.
  - exists rows, hw'. split; [exact Hload | exact Hrows].
  - destruct Hreturns as (data & dw' & Hrun).
    + intros r text Hr _.
      repeat (apply elem_of_cons in Hr as [->|Hr]); try done.
      by apply elem_of_nil in Hr.
    + exists data, dw'. split; [exact Hrun|].
      exact (proj1 (Hdata data dw' Hrun)).
Defined.

(** ** Failures of the data sources *)

Section Failures.
Context `{Geometry}.

(** C8, amended: when its source cannot be read, each loader of the
    choropleth pipeline makes one attempt, prints one message with the
    text of the exception and returns [None]; the loader of the dashboard
    makes one attempt as well, but prints nothing and lets the exception
    through. *)
Theorem loaders_on_failure (hw : Hotspots.World) (dw : Dashboard.World) :
  (∀ e, Hotspots.endpoint hw = inl e →
        Hotspots.load_chicago_neighborhoods hw
        = (Returns None,
           Hotspots.log
             (Hotspots.Text ("Error loading neighborhood data: " ++ exn_str e)%string)
             (Hotspots.count_request hw)))
  ∧ (∀ e, Hotspots.database hw = inl e →
          Hotspots.load_crime_data hw
          = (Returns None,
             Hotspots.log
               (Hotspots.Text ("Error loading crime data: " ++ exn_str e)%string)
               (Hotspots.count_query hw)))
  ∧ (∀ e, Dashboard.database dw = inl e →
          Dashboard.load_data dw = (Raises e, Dashboard.count_query dw)).
Proof.
  repeat split.
  - intros e Hnet.
    unfold Hotspots.load_chicago_neighborhoods, try_except, bind,
      Hotspots.fetch_features.
    by rewrite Hnet.
  - intros e Hdb.
    unfold Hotspots.load_crime_data, try_except, bind, Hotspots.read_sql_query.
    by rewrite Hdb.
  - intros e Hdb.
    unfold Dashboard.load_data, bind, Dashboard.read_sql_query.
    by rewrite Hdb.
Qed.

End Failures.

(** A world in which the endpoint is unreachable and the database does
    not exist, for both scripts: one request, one query and one line of
    output per loader of the choropleth pipeline, and an exception from
    the loader of the dashboard; connecting has created the database
    file. *)
Lemma loaders_on_failure_witness :
  Hotspots.load_chicago_neighborhoods Sample.all_down
  = (Returns None,
     Hotspots.mkWorld (inl Sample.unreachable) (inl Sample.no_table) ∅
       [Hotspots.Text "Error loading neighborhood data: Connection refused"] 1 0)
  ∧ Hotspots.load_crime_data Sample.all_down
    = (Returns None,
       Hotspots.mkWorld (inl Sample.unreachable) (inl Sample.no_table) Sample.disk
         [Hotspots.Text "Error loading crime data: no such table: homicides"] 0 1)
  ∧ Dashboard.load_data Sample.dashboard_no_database
    = (Raises Sample.no_table,
       Dashboard.mkWorld (inl Sample.no_table) Sample.dashboard_disk [] 1).
Proof.
  destruct (loaders_on_failure (H := BoxGeometry)
              Sample.all_down Sample.dashboard_no_database)
    as (Hnet & Hdb & Hdash).
  split; [|split].
  - exact (Hnet Sample.unreachable eq_refl).
  - exact (Hdb Sample.no_table eq_refl).
  - exact (Hdash Sample.no_table eq_refl).
Defined.

(** C8 as stated fails for the loader of the dashboard: with the table
    missing it raises, returns no result and prints nothing. *)
Lemma load_data_raises :
  Dashboard.load_data Sample.dashboard_no_database
  = (Raises Sample.no_table,
     Dashboard.mkWorld (inl Sample.no_table) Sample.dashboard_disk [] 1)
  ∧ ¬ (∃ data w', Dashboard.load_data Sample.dashboard_no_database = (Returns data, w')).
Proof. split; [reflexivity|]. intros (data & w' & Hrun). discriminate Hrun. Qed.


(** ** The choropleth pipeline and its output file *)

(** Connecting touches no file other than the database file, which
    exists afterwards. *)
Lemma connect_lookup_ne {X} (db : X) (fs : gmap string X) (name : string) :
  name ≠ database_file → connect db fs !! name = fs !! name.
Proof.
  intros Hname. unfold connect. destruct (fs !! database_file); [done|].
  by rewrite lookup_insert_ne.
Qed.


Section Choropleth.
Context `{Geometry} {F : Hotspots.Folium}.
Import Hotspots.

(** What the two loaders do, by the state of their source. *)
Lemma load_chicago_neighborhoods_run (w : World) :
  load_chicago_neighborhoods w
  = match endpoint w with
    | inl e =>
        (Returns None,
         log (Text ("Error loading neighborhood data: " ++ exn_str e)%string)
             (count_request w))
    | inr neighborhoods => (Returns (Some neighborhoods), count_request w)
    end.
Proof.
  unfold load_chicago_neighborhoods, try_except, bind, fetch_features.
  by destruct (endpoint w).
Qed.

Lemma load_crime_data_run (w : World) :
  load_crime_data w
  = match database w with
    | inl e =>
        (Returns None,
         log (Text ("Error loading crime data: " ++ exn_str e)%string)
             (count_query w))
    | inr table => (Returns (Some (incident_frame table)), count_query w)
    end.
Proof.
  unfold load_crime_data, try_except, bind, read_sql_query.
  by destruct (database w).
Qed.

(** The run up to the test on the loaded data: two progress lines, the
    two loads, and the rest [k] of the function. *)
Lemma loading_run {A} (k : option (list Feature) → option (list CrimeRow) → M World A)
    (w : World) :
  (print (Text "Loading neighborhood boundaries...") ;;
   let* neighborhoods := load_chicago_neighborhoods in
   print (Text "Loading crime data...") ;;
   let* crime_data := load_crime_data in
   k neighborhoods crime_data)%run w
  = k match endpoint w with inl _ => None | inr nbs => Some nbs end
      match database w with
      | inl _ => None
      | inr table => Some (incident_frame table)
      end
      (after_loading w).
Proof.
  unfold after_loading, bind at 1 2 3 4. unfold print.
  rewrite !load_chicago_neighborhoods_run. cbn [endpoint log].
  destruct (endpoint w) as [e1|nbs]; cbn [snd];
    rewrite !load_crime_data_run; cbn [database log count_request];
    destruct (database w) as [e2|table]; reflexivity.
Qed.

(** The world after the two loads: the sources are as before, each has
    been asked once, and the files are as connecting leaves them. *)
Lemma after_loading_fields (w : World) :
  endpoint (after_loading w) = endpoint w
  ∧ database (after_loading w) = database w
  ∧ files (after_loading w) = connect Database (files w)
  ∧ http_requests (after_loading w) = S (http_requests w)
  ∧ sql_queries (after_loading w) = S (sql_queries w).
Proof.
  unfold after_loading.
  rewrite load_crime_data_run, load_chicago_neighborhoods_run.
  cbn [endpoint database log].
  destruct (endpoint w) eqn:Hnet; cbn [snd database log count_request];
    destruct (database w) eqn:Hdb;
    cbn [snd endpoint database files http_requests sql_queries
         log count_request count_query];
    by rewrite ?Hnet, ?Hdb.
Qed.

Lemma after_loading_stdout (w : World) :
  stdout (after_loading w)
  = stdout w
    ++ [Text "Loading neighborhood boundaries..."]
    ++ match endpoint w with
       | inl e => [Text ("Error loading neighborhood data: " ++ exn_str e)%string]
       | inr _ => []
       end
    ++ [Text "Loading crime data..."]
    ++ match database w with
       | inl e => [Text ("Error loading crime data: " ++ exn_str e)%string]
       | inr _ => []
       end.
Proof.
  unfold after_loading.
  rewrite load_crime_data_run, load_chicago_neighborhoods_run.
  cbn [endpoint database log].
  destruct (endpoint w); cbn [snd database log count_request];
    destruct (database w); cbn [snd stdout log count_request count_query];
    by rewrite <- ?app_assoc.
Qed.

Lemma zip_annotated {A B C} (f : A → B) (g : B → A → C) (l : list A) :
  zip (zip l (map f l)) (zip_with g (map f l) l) = map (λ x, (x, f x, g (f x) x)) l.
Proof. induction l as [|x l IH]; simpl; [done|]. by rewrite IH. Qed.

(** The annotated frame: a row per polygon with its count and density. *)
Lemma annotated_frame (neighborhoods : list Feature) (crime_data : list CrimeRow) :
  zip (zip neighborhoods (crime_counts neighborhoods crime_data))
      (crime_density (crime_counts neighborhoods crime_data) neighborhoods)
  = map (annotated crime_data) neighborhoods.
Proof.
  unfold crime_density. rewrite crime_counts_map.
  apply (zip_annotated
           (λ nb, Z.of_nat (points_within crime_data nb))
           (λ count nb, (float_of_Z count / area (feature_geometry nb) * 1e7)%float)).
Qed.

Lemma annotated_density (neighborhoods : list Feature) (crime_data : list CrimeRow) :
  crime_density (crime_counts neighborhoods crime_data) neighborhoods
  = map snd (map (annotated crime_data) neighborhoods).
Proof.
  unfold crime_density. rewrite crime_counts_map.
  induction neighborhoods as [|nb l IH]; simpl; [done|]. by rewrite IH.
Qed.

(** The whole run when a source does not answer. *)
Lemma create_chloropleth_map_failure (w : World) :
  (∃ e, endpoint w = inl e) ∨ (∃ e, database w = inl e) →
  create_chloropleth_map w
  = (Returns (), log (Text "Error: Could not load required data") (after_loading w)).
Proof.
  intros Hfail. unfold create_chloropleth_map. rewrite loading_run.
  destruct Hfail as [[e ->]|[e ->]]; [done|]. by destruct (endpoint w).
Qed.

(** The whole run when both sources answer, by what folium does with the
    document: an exception from building a layer ends the run before the
    output file is opened, an exception from rendering ends it when the
    file is open and empty. *)
Lemma create_chloropleth_map_run (w : World)
    (neighborhoods : list Feature) (table : list Homicide) :
  endpoint w = inr neighborhoods → database w = inr table →
  create_chloropleth_map w
  = let doc := full_document neighborhoods table in
    let w1 := log (Text "Creating chloropleth map...")
                (log (Text "Analyzing crime patterns...") (after_loading w)) in
    match build_choropleth (choropleth doc) (color_vmin doc) (color_vmax doc) with
    | Some e => (Raises e, w1)
    | None =>
        let w2 := log (Text "Adding heatmap layer...") w1 in
        match build_heatmap (heat_data doc) with
        | Some e => (Raises e, w2)
        | None =>
            match render doc with
            | Some e => (Raises e, write_file output_file Blank w2)
            | None =>
                (Returns (),
                 log (Table (nlargest 10
                               (map (λ '(f, c, d), (community f, c, d))
                                    (choropleth doc))))
                   (log (Text (newline ++ "Top 10 Neighborhoods by Crime Count:")%string)
                      (log (Text (newline ++ "Crime Statistics by Neighborhood:")%string)
                         (log (Text ("Map saved as " ++ output_file)%string)
                            (write_file output_file (Html doc)
                               (write_file output_file Blank w2))))))
            end
        end
    end.
Proof.
  intros Hnet Hdb. unfold create_chloropleth_map.
  rewrite loading_run, Hnet, Hdb. cbv zeta.
  rewrite annotated_frame, annotated_density.
  unfold full_document. cbn [choropleth color_vmin color_vmax heat_data].
  unfold bind at 1 2. unfold print at 1 2.
  unfold bind at 1. unfold call at 1.
  destruct (build_choropleth _ _ _) as [e|]; [done|].
  unfold bind at 1 2. unfold print at 1. unfold call at 1.
  destruct (build_heatmap _) as [e|]; [done|].
  unfold bind at 1. unfold save at 1.
  destruct (render _) as [e|]; [done|].
  reflexivity.
Qed.

(** What every run of the pipeline leaves: the sources as they were,
    each asked once, and every file other than the output file as
    connecting leaves it. *)
Lemma create_chloropleth_map_frame (w : World) :
  endpoint (create_chloropleth_map w).2 = endpoint w
  ∧ database (create_chloropleth_map w).2 = database w
  ∧ http_requests (create_chloropleth_map w).2 = S (http_requests w)
  ∧ sql_queries (create_chloropleth_map w).2 = S (sql_queries w)
  ∧ (∀ name, name ≠ output_file →
             files (create_chloropleth_map w).2 !! name
             = connect Database (files w) !! name).
Proof.
  destruct (after_loading_fields w) as (Hnet & Hdb & Hfiles & Hrequests & Hqueries).
  assert ((∃ e, endpoint w = inl e) ∨ (∃ e, database w = inl e)
          ∨ ∃ neighborhoods table,
              endpoint w = inr neighborhoods ∧ database w = inr table) as Hcases.
  { destruct (endpoint w) as [e|neighborhoods]; [left; by exists e|].
    destruct (database w) as [e|table]; [right; left; by exists e|].
    right; right. by exists neighborhoods, table. }
  destruct Hcases as [Hfail|[Hfail|(neighborhoods & table & Enet & Edb)]].
  - rewrite create_chloropleth_map_failure by (by left).
    cbn [snd endpoint database files http_requests sql_queries log].
    by rewrite Hfiles.
  - rewrite create_chloropleth_map_failure by (by right).
    cbn [snd endpoint database files http_requests sql_queries log].
    by rewrite Hfiles.
  - rewrite (create_chloropleth_map_run w neighborhoods table Enet Edb). cbv zeta.
    destruct (build_choropleth _ _ _) as [e|];
      [|destruct (build_heatmap _) as [e|]; [|destruct (render _) as [e|]]];
      cbn [snd endpoint database files http_requests sql_queries log write_file];
      rewrite ?Hfiles; repeat split; try done;
      intros name Hname; by rewrite ?lookup_insert_ne by done.
Qed.

(** C9, amended: a run of the choropleth pipeline whose boundary fetch
    fails prints the error of the fetch and the message that the data
    could not be loaded, returns, and leaves the output file as it was;
    the one file that can appear is the database file, which connecting
    creates when it is absent.  The same holds when the table cannot be
    read.  When both sources answer, the output file is written all or
    nothing only as far as building the layers goes: an exception from
    building the choropleth or the heat map ends the run with the output
    file as it was; an exception from rendering, which [m.save] does after
    opening the file, ends the run with the output file empty; otherwise
    the run returns and the output file holds the full document, with the
    exact count and the density of every polygon, the ends of the colour
    scale and a heat-map point for every located incident. *)
Theorem choropleth_output_file (w : World) :
  (∀ e, endpoint w = inl e →
        ∃ w', create_chloropleth_map w = (Returns (), w')
              ∧ files w' = connect Database (files w)
              ∧ files w' !! output_file = files w !! output_file
              ∧ stdout w'
                = stdout w
                  ++ [Text "Loading neighborhood boundaries...";
                      Text ("Error loading neighborhood data: " ++ exn_str e)%string;
                      Text "Loading crime data..."]
                  ++ match database w with
                     | inl e' => [Text ("Error loading crime data: " ++ exn_str e')%string]
                     | inr _ => []
                     end
                  ++ [Text "Error: Could not load required data"])
  ∧ (∀ e, database w = inl e →
          ∃ w', create_chloropleth_map w = (Returns (), w')
                ∧ files w' = connect Database (files w)
                ∧ files w' !! output_file = files w !! output_file
                ∧ Text "Error: Could not load required data" ∈ stdout w')
  ∧ (∀ neighborhoods table,
        endpoint w = inr neighborhoods → database w = inr table →
        let doc := full_document neighborhoods table in
        ∃ w',
          match build_choropleth (choropleth doc) (color_vmin doc) (color_vmax doc),
                build_heatmap (heat_data doc), render doc with
          | Some e, _, _ | None, Some e, _ =>
              create_chloropleth_map w = (Raises e, w')
              ∧ files w' = connect Database (files w)
              ∧ files w' !! output_file = files w !! output_file
          | None, None, Some e =>
              create_chloropleth_map w = (Raises e, w')
              ∧ files w' = <[output_file := Blank]> (connect Database (files w))
          | None, None, None =>
              create_chloropleth_map w = (Returns (), w')
              ∧ files w' = <[output_file := Html doc]> (connect Database (files w))
          end).
Proof.
  destruct (after_loading_fields w) as (_ & _ & Hfiles & _).
  pose proof (after_loading_stdout w) as Hout.
  assert (connect Database (files w) !! output_file = files w !! output_file)
    as Hkept by (by apply connect_lookup_ne).
  split; [|split].
  - intros e Hnet. eexists. split; [apply create_chloropleth_map_failure; eauto|].
    cbn [files stdout log]. rewrite Hfiles, Hout, Hnet.
    repeat split; [done|]. by rewrite <- !app_assoc.
  - intros e Hdb. eexists. split; [apply create_chloropleth_map_failure; eauto|].
    cbn [files stdout log]. rewrite Hfiles.
    repeat split; [done|]. apply elem_of_app. right. by left.
  - intros neighborhoods table Hnet Hdb doc.
    rewrite (create_chloropleth_map_run w neighborhoods table Hnet Hdb).
    cbv zeta. fold doc.
    destruct (build_choropleth _ _ _) as [e|];
      [|destruct (build_heatmap _) as [e|]; [|destruct (render _) as [e|]]];
      eexists; (split; [reflexivity|]);
      cbn [files log write_file]; rewrite Hfiles; try done.
    by rewrite insert_insert_eq.
Qed.

End Choropleth.

(** With the endpoint unreachable the run prints four lines and writes
    nothing; with both sources available, and folium raising nothing, the
    output file holds the full document of the two sample polygons. *)
Lemma choropleth_output_file_witness :
  (∃ w', Hotspots.create_chloropleth_map (F := Sample.folium) Sample.offline
         = (Returns (), w')
         ∧ Hotspots.files w' !! Hotspots.output_file = None
         ∧ Hotspots.stdout w'
           = [Hotspots.Text "Loading neighborhood boundaries...";
              Hotspots.Text "Error loading neighborhood data: Connection refused";
              Hotspots.Text "Loading crime data...";
              Hotspots.Text "Error: Could not load required data"])
  ∧ (∃ w', Hotspots.create_chloropleth_map (F := Sample.folium) Sample.online
           = (Returns (), w')
           ∧ Hotspots.files w'
             = <[Hotspots.output_file :=
                   Hotspots.Html (full_document Sample.boundaries Sample.table)]>
                 Sample.disk).
Proof.
  split.
  - destruct (proj1 (choropleth_output_file (F := Sample.folium) Sample.offline)
                Sample.unreachable eq_refl)
      as (w' & Hrun & _ & Hfile & Hout).
    exists w'. split; [exact Hrun|]. split; [exact Hfile | exact Hout].
  - destruct (proj2 (proj2 (choropleth_output_file (F := Sample.folium) Sample.online))
                Sample.boundaries Sample.table eq_refl eq_refl)
      as (w' & Hrun & Hfiles).
    exists w'. split; [exact Hrun | exact Hfiles].
Defined.

(** C9 as stated fails when rendering raises: with a polygon of no
    width in the boundary set, whose density is NaN, the run does not
    complete, and the output file, absent before, is there and empty:
    neither a full document nor no file. *)
Lemma render_failure_leaves_empty_file :
  Hotspots.files Sample.degenerate !! Hotspots.output_file = None
  ∧ ∃ e w', Hotspots.create_chloropleth_map (F := Sample.folium) Sample.degenerate
            = (Raises e, w')
            ∧ Hotspots.files w' !! Hotspots.output_file = Some Hotspots.Blank.
Proof.
  split; [reflexivity|].
  eexists _, _. split; [vm_compute; reflexivity|]. reflexivity.
Qed.

(** ** Series: [value_counts] and [reindex] *)

Section Series.
Context `{EqDecision K}.

Lemma uniques_elem (x : K) (l : list K) : x ∈ uniques l ↔ x ∈ l.
Proof.
  induction l as [|a l IH]; simpl; [done|].
  rewrite !elem_of_cons, list_elem_of_filter, IH. split.
  - intros [Hx|[_ Hx]]; [by left | by right].
  - intros [->|Hx]; [by left|]. destruct (decide (x = a)); [by left | by right].
Qed.

Lemma uniques_NoDup (l : list K) : NoDup (uniques l).
Proof.
  induction l as [|a l IH]; simpl; constructor.
  - rewrite list_elem_of_filter. by intros [Hne _].
  - by apply NoDup_filter.
Qed.

(** Reading a series whose index has no repeated label. *)
Lemma series_get_Some {V} (series : list (K * V)) (k : K) (v : V) :
  NoDup series.*1 → (k, v) ∈ series → series_get k series = Some v.
Proof.
  induction series as [|[k' v'] series IH]; simpl; intros Hnd Hin.
  - by apply elem_of_nil in Hin.
  - apply NoDup_cons in Hnd as [Hfresh Hnd].
    apply elem_of_cons in Hin as [[= -> ->]|Hin].
    + by rewrite decide_True.
    + rewrite decide_False; [by apply IH|].
      intros ->. apply Hfresh, list_elem_of_fmap. by exists (k, v).
Qed.

Lemma series_get_None {V} (series : list (K * V)) (k : K) :
  k ∉ series.*1 → series_get k series = None.
Proof.
  induction series as [|[k' v'] series IH]; simpl; intros Hout; [done|].
  rewrite not_elem_of_cons in Hout. destruct Hout as [Hne Hout].
  rewrite decide_False by done. by apply IH.
Qed.

Lemma value_counts_index (column : list (option K)) :
  (value_counts column).*1 ≡ₚ uniques (omap id column).
Proof.
  unfold value_counts. rewrite sort_by_Permutation.
  rewrite <- list_fmap_compose. by rewrite (list_fmap_ext _ id _ (λ _ _ _, eq_refl)), list_fmap_id.
Qed.

(** [value_counts] holds, at each value of the column, the number of its
    occurrences, and nothing at other labels. *)
Lemma value_counts_get (column : list (option K)) (k : K) :
  series_get k (value_counts column)
  = if decide (Some k ∈ column)
    then Some (occurrences k (omap id column))
    else None.
Proof.
  assert (Some k ∈ column ↔ k ∈ omap id column) as Hvalues.
  { rewrite list_elem_of_omap. split.
    - intros Hin. by exists (Some k).
    - intros (c & Hin & Hc). unfold id in Hc. by subst c. }
  case_decide as Hk.
  - apply series_get_Some.
    + rewrite value_counts_index. apply uniques_NoDup.
    + unfold value_counts. rewrite sort_by_Permutation.
      apply list_elem_of_fmap. eexists. split; [reflexivity|].
      by apply uniques_elem, Hvalues.
  - apply series_get_None. rewrite value_counts_index, uniques_elem.
    by rewrite <- Hvalues.
Qed.

Lemma occurrences_column {A} (f : A → option K) (k : K) (l : list A) :
  occurrences k (omap id (map f l))
  = Z.of_nat (length (filter (λ x, f x = Some k) l)).
Proof.
  unfold occurrences. f_equal.
  induction l as [|x l IH]; [done|]. cbn [map]. rewrite (filter_cons _ x).
  destruct (f x) as [y|] eqn:E.
  - change (omap id (Some y :: map f l)) with (y :: omap id (map f l)).
    rewrite filter_cons. destruct (decide (y = k)) as [->|Hne].
    + rewrite decide_True by done. cbn [length]. by rewrite IH.
    + rewrite decide_False by congruence. done.
  - change (omap id (None :: map f l)) with (omap id (map f l)).
    rewrite decide_False by done. done.
Qed.

End Series.

(** ** The derived columns and the charts of [main.py] *)

Section Analytics.
Import Dashboard.

(** C2: for every timestamp whose month is between 1 and 12 the season
    column holds one of the four season names, and which one is fixed by
    the month: Winter for 12, 1, 2; Spring for 3, 4, 5; Summer for
    6, 7, 8; Fall for 9, 10, 11. *)
Theorem season_partition (r : Homicide) (t : Timestamp) :
  1 ≤ ts_month t ≤ 12 →
  (season (derive r (Some t)) = "Winter" ↔ ts_month t ∈ [12; 1; 2])
  ∧ (season (derive r (Some t)) = "Spring" ↔ ts_month t ∈ [3; 4; 5])
  ∧ (season (derive r (Some t)) = "Summer" ↔ ts_month t ∈ [6; 7; 8])
  ∧ (season (derive r (Some t)) = "Fall" ↔ ts_month t ∈ [9; 10; 11])
  ∧ season (derive r (Some t)) ∈ ["Winter"; "Spring"; "Summer"; "Fall"].
Proof.
  intros Hmonth.
  change (season (derive r (Some t))) with (season_of_month (Some (ts_month t))).
  generalize dependent (ts_month t). intros m Hmonth.
  unfold season_of_month.
  repeat case_bool_decide; set_unfold;
    repeat split; intros; first [done | discriminate | lia | intuition congruence].
Qed.

(** The weekday chart reads, at each day name, the number of incidents
    of that day, or NaN when there is none. *)
Lemma dow_counts_spec (data : list Incident) :
  dow_counts data
  = map (λ d, (d, if decide (Some d ∈ map day_name data)
                  then Some (incidents_on data d) else None))
        day_names.
Proof.
  unfold dow_counts, reindex. apply map_ext. intros d.
  by rewrite value_counts_get, occurrences_column.
Qed.

(** C6: for every incident collection in which each of the seven day
    names occurs, the weekday aggregation is the list of the seven day
    names from Monday to Sunday, each with the exact number of incidents
    of that day. *)
Theorem weekday_counts_monday_first (data : list Incident) :
  (∀ d, d ∈ day_names → Some d ∈ map day_name data) →
  dow_counts data
  = [("Monday", Some (incidents_on data "Monday"));
     ("Tuesday", Some (incidents_on data "Tuesday"));
     ("Wednesday", Some (incidents_on data "Wednesday"));
     ("Thursday", Some (incidents_on data "Thursday"));
     ("Friday", Some (incidents_on data "Friday"));
     ("Saturday", Some (incidents_on data "Saturday"));
     ("Sunday", Some (incidents_on data "Sunday"))].
Proof.
  intros Hcover. rewrite dow_counts_spec. unfold day_names in *. cbn [map].
  rewrite !decide_True; [done|..]; apply Hcover;
    repeat first [apply list_elem_of_here | apply list_elem_of_further].
Qed.

End Analytics.

(** A timestamp of January is in Winter. *)
Lemma season_partition_witness :
  Dashboard.season (Dashboard.derive Sample.h1 (Some Sample.monday_noon)) = "Winter".
Proof.
  apply (season_partition Sample.h1 Sample.monday_noon).
  - simpl. lia.
  - simpl. set_solver.
Defined.

(** The weekday chart of the nine sample incidents. *)
Lemma weekday_counts_monday_first_witness :
  Dashboard.dow_counts Sample.week
  = [("Monday", Some 2); ("Tuesday", Some 1); ("Wednesday", Some 2);
     ("Thursday", Some 1); ("Friday", Some 1); ("Saturday", Some 1);
     ("Sunday", Some 1)].
Proof.
  refine (weekday_counts_monday_first Sample.week _).
  apply Forall_forall. refine (bool_decide_unpack _ _). vm_compute. exact I.
Defined.

(** ** The year layers of [main.py] *)

Section Layers.
Import Dashboard.

(** The layers [create_layers] adds to a fresh map: a cluster layer and a
    heat-map layer for each year from 2020 to 2024, in this order, each
    holding the rows of its year. *)
Lemma create_layers_layers (data : list Incident) :
  layers (create_layers data initialize_map).2
  = [mkLayer "cluster_year_2020" Cluster (year_data data 2020);
     mkLayer "heatmap_year_2020" Heatmap (year_data data 2020);
     mkLayer "cluster_year_2021" Cluster (year_data data 2021);
     mkLayer "heatmap_year_2021" Heatmap (year_data data 2021);
     mkLayer "cluster_year_2022" Cluster (year_data data 2022);
     mkLayer "heatmap_year_2022" Heatmap (year_data data 2022);
     mkLayer "cluster_year_2023" Cluster (year_data data 2023);
     mkLayer "heatmap_year_2023" Heatmap (year_data data 2023);
     mkLayer "cluster_year_2024" Cluster (year_data data 2024);
     mkLayer "heatmap_year_2024" Heatmap (year_data data 2024)].
Proof. reflexivity. Qed.

(** C7, amended: for the empty incident collection the map renderer
    still succeeds, and the map carries the ten year layers (a cluster
    layer and a heat-map layer for each year from 2020 to 2024), all of
    them without incidents, and one click script per year. *)
Theorem empty_collection_layers :
  layers (create_layers [] initialize_map).2
  = [mkLayer "cluster_year_2020" Cluster []; mkLayer "heatmap_year_2020" Heatmap [];
     mkLayer "cluster_year_2021" Cluster []; mkLayer "heatmap_year_2021" Heatmap [];
     mkLayer "cluster_year_2022" Cluster []; mkLayer "heatmap_year_2022" Heatmap [];
     mkLayer "cluster_year_2023" Cluster []; mkLayer "heatmap_year_2023" Heatmap [];
     mkLayer "cluster_year_2024" Cluster []; mkLayer "heatmap_year_2024" Heatmap []]
  ∧ elements (create_layers [] initialize_map).2
    = [ClickScript "heatmap_year_2020"; ClickScript "heatmap_year_2021";
       ClickScript "heatmap_year_2022"; ClickScript "heatmap_year_2023";
       ClickScript "heatmap_year_2024"].
Proof. split; reflexivity. Qed.

(** C7 as stated fails on the empty collection: the map has layers, and
    the chart renderer raises where it labels the hours. *)
Lemma empty_collection_has_layers_and_no_charts :
  ¬ (layers (create_layers [] initialize_map).2 = []
     ∧ ∃ charts, create_analytics_html [] = Returns charts).
Proof. intros [Hlayers _]. discriminate Hlayers. Qed.

(** The hour chart needs incidents in all twenty-four hours: with none,
    assigning the twenty-four labels raises, and so does the chart
    renderer. *)
Example create_analytics_html_empty :
  create_analytics_html []
  = Raises (Exception
      "Length mismatch: Expected axis has 0 elements, new values have 24 elements").
Proof. reflexivity. Qed.

(** The season chart holds, at each season that occurs, the number of
    incidents of the whole collection in that season. *)
Lemma season_counts_get (data : list Incident) (r : Incident) :
  r ∈ data →
  series_get (season r) (season_counts data)
  = Some (incidents_in_season data (season r)).
Proof.
  intros Hr. unfold season_counts. rewrite value_counts_get.
  rewrite decide_True.
  - rewrite (occurrences_column (λ r, Some (season r))).
    unfold incidents_in_season. do 3 f_equal.
    apply list_filter_iff. intros i. split; congruence.
  - apply list_elem_of_fmap. by exists r.
Qed.

(** C10: layers are made for the years 2020 to 2024 only.  An incident
    of the collection whose year is outside that range (or missing) is
    among the rows of no layer of the map; yet it is in the collection the
    charts are computed from, and is counted in them: the season chart
    holds at its season the number of all incidents of that season, which
    is at least one, and likewise the weekday chart at its day. *)
Theorem outside_years_in_no_layer (data : list Incident) (r : Incident) :
  r ∈ data →
  (∀ year, 2020 ≤ year ≤ 2024 → Year (row r) ≠ Some year) →
  (∀ l, l ∈ layers (create_layers data initialize_map).2 → r ∉ layer_rows l)
  ∧ series_get (season r) (season_counts data)
    = Some (incidents_in_season data (season r))
  ∧ 1 ≤ incidents_in_season data (season r)
  ∧ (∀ d, day_name r = Some d → d ∈ day_names →
          (d, Some (incidents_on data d)) ∈ dow_counts data
          ∧ 1 ≤ incidents_on data d).
Proof.
  intros Hr Hyear. repeat split.
  - intros l Hl Hin. rewrite create_layers_layers in Hl.
    assert (∃ year, 2020 ≤ year ≤ 2024 ∧ layer_rows l = year_data data year)
      as (year & Hrange & Hrows).
    { repeat (apply elem_of_cons in Hl as [->|Hl]);
        [eexists; split; [|reflexivity]; lia ..|by apply elem_of_nil in Hl]. }
    rewrite Hrows in Hin. apply list_elem_of_filter in Hin as [Hy _].
    by apply (Hyear year).
  - by apply season_counts_get.
  - unfold incidents_in_season.
    assert (r ∈ filter (λ i, season i = season r) data) as Hin
      by (by apply list_elem_of_filter).
    destruct (filter _ data); [by apply elem_of_nil in Hin | simpl; lia].
  - rewrite dow_counts_spec. apply list_elem_of_fmap. exists d.
    split; [|done]. rewrite decide_True; [done|].
    apply list_elem_of_fmap. by exists r.
  - unfold incidents_on.
    assert (r ∈ filter (λ i, day_name i = Some d) data) as Hin
      by (by apply list_elem_of_filter).
    destruct (filter _ data); [by apply elem_of_nil in Hin | simpl; lia].
Qed.

End Layers.

(** The sample incident of 2019 is in no layer, and is the one Summer
    incident of the season chart. *)
Lemma outside_years_in_no_layer_witness :
  (∀ l, l ∈ Dashboard.layers
              (Dashboard.create_layers Sample.incidents Dashboard.initialize_map).2 →
        Sample.incident_2019 ∉ Dashboard.layer_rows l)
  ∧ series_get "Summer" (Dashboard.season_counts Sample.incidents) = Some 1.
Proof.
  destruct (outside_years_in_no_layer Sample.incidents Sample.incident_2019)
    as (Hlayers & Hseason & _).
  - apply list_elem_of_further, list_elem_of_here.
  - intros year Hrange [= Hyear]. lia.
  - split; [exact Hlayers | exact Hseason].
Defined.

(** ** Worked examples *)

(** A run of the choropleth script with both sources available: one
    request, one query, and the output file holds a row per polygon. *)
Example hotspots_run :
  (Hotspots.main (F := Sample.folium) Sample.online).1 = Returns ()
  ∧ Hotspots.http_requests (Hotspots.main (F := Sample.folium) Sample.online).2 = 1%nat
  ∧ Hotspots.sql_queries (Hotspots.main (F := Sample.folium) Sample.online).2 = 1%nat
  ∧ ∃ d, Hotspots.files (Hotspots.main (F := Sample.folium) Sample.online).2
           !! Hotspots.output_file
         = Some (Hotspots.Html d)
         ∧ map (λ x, (Hotspots.community x.1.1, x.1.2, x.2)) (Hotspots.choropleth d)
           = [("LOOP", 2, 320000000%float); ("NEAR NORTH SIDE", 1, 160000000%float)].
Proof. repeat split. eexists. split; vm_compute; reflexivity. Qed.

(** The same run with a polygon of no width in the boundary set: its
    density is NaN, rendering raises, and the script ends on the line of
    its handler with the output file empty. *)
Example hotspots_run_degenerate :
  ∃ e, (Hotspots.main (F := Sample.folium) Sample.degenerate).1 = Raises e
       ∧ Hotspots.files (Hotspots.main (F := Sample.folium) Sample.degenerate).2
           !! Hotspots.output_file
         = Some Hotspots.Blank
       ∧ last (Hotspots.stdout (Hotspots.main (F := Sample.folium) Sample.degenerate).2)
         = Some (Hotspots.Text ("An error occurred: " ++ exn_str e)).
Proof. eexists. repeat split. Qed.

(** A polygon of area zero: the division is carried out all the same and
    yields an infinity for a positive count and NaN for a count of zero. *)
Example density_at_zero_area :
  (float_of_Z 3 / 0 * 1e7)%float = infinity
  ∧ (float_of_Z 0 / 0 * 1e7)%float = nan.
Proof. split; reflexivity. Qed.

(** A point on the edge of a rectangle is not within it. *)
Example edge_not_within :
  box_within (Hotspots.geometry (Hotspots.crime_row Sample.h3)) Sample.loop = false
  ∧ box_within (Hotspots.geometry (Hotspots.crime_row Sample.h3)) Sample.south = false.
Proof. split; reflexivity. Qed.

(** The dashboard script on the sample table: the incidents cover two
    hours of the day only, so the chart renderer raises and the dashboard
    is not written. *)
Example dashboard_run :
  (Dashboard.main (F := Sample.dashboard_folium) Sample.dashboard_world).1
  = Raises (Exception
      "Length mismatch: Expected axis has 2 elements, new values have 24 elements")
  ∧ Dashboard.files (Dashboard.main (F := Sample.dashboard_folium) Sample.dashboard_world).2
    = Sample.dashboard_disk
  ∧ Dashboard.stdout (Dashboard.main (F := Sample.dashboard_folium) Sample.dashboard_world).2
    = ["Loading data..."; "Creating map..."; "Creating analytics..."].
Proof. vm_compute. repeat split. Qed.

(** A day without incidents is NaN in the weekday chart. *)
Example dow_counts_missing_day :
  Dashboard.dow_counts [Sample.on_day 1; Sample.on_day 8]
  = [("Monday", Some 2); ("Tuesday", None); ("Wednesday", None); ("Thursday", None);
     ("Friday", None); ("Saturday", None); ("Sunday", None)].
Proof. reflexivity. Qed.

(** A date that is NaT falls in no listed month and is put in Fall. *)
Example season_of_missing_date :
  Dashboard.season Sample.incident_undated = "Fall".
Proof. reflexivity. Qed.

(* ===================================================================== *)
(** * Part III: further properties of the two scripts                    *)
(* ===================================================================== *)

(** ** Sorting *)

Section Sorting.
Context {A : Type} (R : A → A → Prop) `{RelDecision A A R}.
Context `{!Transitive R, !Total R}.

Lemma insert_by_sorted (x : A) (l : list A) :
  StronglySorted R l → StronglySorted R (insert_by R x l).
Proof.
  induction 1 as [|y l Hl IH Hy]; simpl.
  - by repeat constructor.
  - case_decide as Hxy.
    + constructor; [by constructor|]. constructor; [done|].
      eapply Forall_impl; [exact Hy|]. intros z Hz. by trans y.
    + constructor; [done|].
      rewrite insert_by_Permutation. constructor; [|done].
      by destruct (total R x y).
Qed.

Lemma sort_by_sorted (l : list A) : StronglySorted R (sort_by R l).
Proof.
  unfold sort_by. induction l as [|x l IH]; simpl; [constructor|].
  by apply insert_by_sorted.
Qed.

(** In a sorted list an earlier element is related to a later one. *)
Lemma sorted_lookup (l : list A) (i j : nat) (a b : A) :
  StronglySorted R l → (i < j)%nat → l !! i = Some a → l !! j = Some b → R a b.
Proof.
  intros Hl. revert i j. induction Hl as [|x l Hl IH Hx]; intros i j Hij Hi Hj.
  - by rewrite lookup_nil in Hi.
  - destruct j as [|j]; [lia|]. destruct i as [|i]; simplify_eq/=.
    + eapply Forall_forall in Hx; [done|]. by eapply list_elem_of_lookup_2.
    + apply (IH i j); [lia|done..].
Qed.

(** What a sorted list keeps when cut: the elements cut off come after
    every element kept. *)
Lemma sorted_take_drop (n : nat) (l : list A) (a b : A) :
  StronglySorted R l → a ∈ take n l → b ∈ drop n l → R a b.
Proof.
  intros Hl Ha Hb. rewrite <- (take_drop n l) in Hl.
  by apply (StronglySorted_app_1_elem_of R (take n l) (drop n l)).
Qed.

End Sorting.

#[local] Instance count_desc_trans {K} : Transitive (@count_desc K).
Proof. intros a b c. unfold count_desc. lia. Qed.

#[local] Instance count_desc_total {K} : Total (@count_desc K).
Proof. intros a b. unfold count_desc. lia. Qed.

#[local] Instance index_asc_trans {V} : Transitive (@index_asc V).
Proof. intros a b c. unfold index_asc. lia. Qed.

#[local] Instance index_asc_total {V} : Total (@index_asc V).
Proof. intros a b. unfold index_asc. lia. Qed.

(** ** More on [value_counts] *)

Section ValueCounts.
Context `{EqDecision K}.

Lemma value_counts_Permutation (column : list (option K)) :
  value_counts column
  ≡ₚ map (λ k, (k, occurrences k (omap id column))) (uniques (omap id column)).
Proof. apply sort_by_Permutation. Qed.

Lemma value_counts_NoDup (column : list (option K)) :
  NoDup (value_counts column).*1.
Proof. rewrite value_counts_index. apply uniques_NoDup. Qed.

(** The entries of [value_counts]: the values of the column, each with
    the number of its occurrences. *)
Lemma value_counts_elem (column : list (option K)) (k : K) (n : Z) :
  (k, n) ∈ value_counts column
  ↔ Some k ∈ column ∧ n = occurrences k (omap id column).
Proof.
  rewrite value_counts_Permutation, list_elem_of_fmap. split.
  - intros (k' & [= -> ->] & Hk). split; [|done].
    apply uniques_elem, list_elem_of_omap in Hk as (c & Hc & Heq).
    unfold id in Heq. by subst c.
  - intros (Hk & ->). exists k. split; [done|].
    apply uniques_elem, list_elem_of_omap. by exists (Some k).
Qed.

Lemma value_counts_sorted (column : list (option K)) :
  StronglySorted count_desc (value_counts column).
Proof. apply sort_by_sorted; apply _. Qed.

Lemma occurrences_pos (k : K) (values : list K) :
  k ∈ values → 1 ≤ occurrences k values.
Proof.
  intros Hk. unfold occurrences.
  assert (k ∈ filter (λ y, y = k) values) as Hin by (by apply list_elem_of_filter).
  destruct (filter _ values); [by apply elem_of_nil in Hin | simpl; lia].
Qed.

(** Exactly one label of an index without repetition is a given one. *)
Lemma sum_indicator (x : K) (index : list K) :
  NoDup index → x ∈ index →
  sum_list_with (λ k, if decide (k = x) then 1%nat else 0%nat) index = 1%nat.
Proof.
  induction 1 as [|k index Hk Hnd IH]; intros Hx; simpl.
  - by apply elem_of_nil in Hx.
  - apply elem_of_cons in Hx as [->|Hx].
    + rewrite decide_True by done.
      assert (sum_list_with (λ k0, if decide (k0 = k) then 1%nat else 0%nat) index
              = 0%nat) as ->; [|done].
      clear IH Hnd. induction index as [|y index IH]; simpl; [done|].
      rewrite not_elem_of_cons in Hk. destruct Hk as [Hne Hk].
      rewrite decide_False by done. by apply IH.
    + rewrite decide_False by (intros ->; contradiction). by rewrite IH.
Qed.

(** The counts over an index that covers the values, without repetition,
    add up to the number of values. *)
Lemma sum_occurrences (values index : list K) :
  NoDup index → (∀ x, x ∈ values → x ∈ index) →
  sum_list_with (λ k, length (filter (λ y, y = k) values)) index = length values.
Proof.
  intros Hnd. induction values as [|x values IH]; intros Hcover.
  - clear. induction index as [|k index IHi]; simpl in *; done.
  - assert (∀ idx,
      sum_list_with (λ k, length (filter (λ y, y = k) (x :: values))) idx
      = (sum_list_with (λ k, if decide (k = x) then 1%nat else 0%nat) idx
         + sum_list_with (λ k, length (filter (λ y, y = k) values)) idx)%nat)
      as Hsplit.
    { clear. induction idx as [|k idx IHi]; simpl; [done|].
      rewrite IHi, filter_cons.
      destruct (decide (x = k)) as [->|Hne].
      - rewrite decide_True by done. simpl. lia.
      - rewrite decide_False by (by intros ->). lia. }
    rewrite Hsplit, (sum_indicator x index Hnd) by (apply Hcover; by left).
    rewrite IH by (intros y Hy; apply Hcover; by right). done.
Qed.

End ValueCounts.

Lemma column_sum_Permutation (l k : list Z) : l ≡ₚ k → column_sum l = column_sum k.
Proof.
  unfold column_sum. induction 1; simpl; lia.
Qed.

(** The counts of [value_counts] add up to the number of cells that are
    not null. *)
Lemma value_counts_total `{EqDecision K} (column : list (option K)) :
  column_sum (value_counts column).*2 = Z.of_nat (length (omap id column)).
Proof.
  rewrite (column_sum_Permutation _ _ (fmap_Permutation snd _ _
             (value_counts_Permutation column))).
  rewrite <- list_fmap_compose. unfold compose. simpl. unfold occurrences.
  rewrite (column_sum_of_nat
             (λ k, length (filter (λ y, y = k) (omap id column)))).
  f_equal. apply sum_occurrences; [apply uniques_NoDup|].
  intros x. by rewrite uniques_elem.
Qed.

(** ** The charts of [create_analytics_html] *)

Section Charts.
Import Dashboard.

Lemma omap_id_Some {A B} (f : A → B) (l : list A) :
  omap id (map (λ x, Some (f x)) l) = map f l.
Proof. induction l as [|x l IH]; [done|]. cbn. by rewrite <- IH. Qed.

(** X1: the location chart has at most ten bars, for distinct kinds of
    location; each bar holds the exact number of incidents at its kind of
    location, which is at least one; the bars are in order of decreasing
    count; and a kind of location that occurs in the collection but has no
    bar is left out of a full chart of ten, none of whose bars is
    smaller. *)
Theorem location_counts_top10 (data : list Incident) :
  (length (location_counts data) ≤ 10)%nat
  ∧ NoDup (location_counts data).*1
  ∧ (∀ place n, (place, n) ∈ location_counts data →
                n = incidents_at_location data place ∧ 1 ≤ n)
  ∧ (∀ i j a b, (i < j)%nat →
                location_counts data !! i = Some a →
                location_counts data !! j = Some b →
                b.2 ≤ a.2)
  ∧ (∀ r place, r ∈ data → Location_Description (row r) = Some place →
                place ∉ (location_counts data).*1 →
                length (location_counts data) = 10%nat
                ∧ ∀ q, q ∈ location_counts data →
                       incidents_at_location data place ≤ q.2).
Proof.
  unfold location_counts.
  set (column := map (λ r, Location_Description (row r)) data).
  pose proof (value_counts_sorted column) as Hsorted.
  pose proof (value_counts_NoDup column) as Hnd.
  rewrite <- (take_drop 10 (value_counts column)) in Hnd.
  rewrite fmap_app in Hnd. apply NoDup_app in Hnd as (Hnd & _ & _).
  assert (∀ place, occurrences place (omap id column)
                   = incidents_at_location data place) as Hocc.
  { intros place. apply (occurrences_column (λ r, Location_Description (row r))). }
  split; [rewrite length_take; lia|]. split; [done|]. split; [|split].
  - intros place n [i [Hi _]]%elem_of_take.
    apply list_elem_of_lookup_2, value_counts_elem in Hi as [Hin ->].
    rewrite <- Hocc. split; [done|]. apply occurrences_pos.
    apply list_elem_of_omap. by exists (Some place).
  - intros i j a b Hij Hi Hj.
    rewrite <- (take_drop 10 (value_counts column)) in Hsorted.
    apply StronglySorted_app_1_l in Hsorted.
    apply (sorted_lookup count_desc _ i j a b Hsorted Hij Hi Hj).
  - intros r place Hr Hplace Hout.
    assert ((place, occurrences place (omap id column)) ∈ value_counts column)
      as Hin.
    { apply value_counts_elem. split; [|done].
      apply list_elem_of_fmap. by exists r. }
    rewrite <- (take_drop 10 (value_counts column)) in Hin.
    apply elem_of_app in Hin as [Hin|Hin].
    { destruct Hout. apply list_elem_of_fmap. by eexists (_, _). }
    split.
    + rewrite length_take. apply Nat.min_l.
      destruct (decide (10 ≤ length (value_counts column))%nat); [done|].
      rewrite drop_ge in Hin by lia. by apply elem_of_nil in Hin.
    + intros q Hq. rewrite <- Hocc.
      apply (sorted_take_drop count_desc 10 _ q _ Hsorted Hq Hin).
Qed.

(** X2: the season chart has one slice for each season that occurs in
    the collection, holding the number of incidents of that season, and
    the slices add up to the number of incidents of the collection (an
    incident without a date counts as Fall). *)
Theorem season_chart_total (data : list Incident) :
  column_sum (season_counts data).*2 = Z.of_nat (length data)
  ∧ NoDup (season_counts data).*1
  ∧ (∀ s n, (s, n) ∈ season_counts data
            ↔ (∃ r, r ∈ data ∧ season r = s) ∧ n = incidents_in_season data s).
Proof.
  unfold season_counts. split; [|split].
  - by rewrite value_counts_total, omap_id_Some, length_map.
  - apply value_counts_NoDup.
  - intros s n. rewrite value_counts_elem, list_elem_of_fmap.
    rewrite (occurrences_column (λ r, Some (season r))).
    unfold incidents_in_season.
    assert (filter (λ r, Some (season r) = Some s) data
            = filter (λ r, season r = s) data) as ->
      by (apply list_filter_iff; intros r; split; congruence).
    split; intros [(r & Hs & Hr) ->]; (split; [exists r|done]);
      (split; [done|congruence]) || (split; [congruence|done]).
Qed.

End Charts.

(** ** The hour chart *)

Section HourChart.
Import Dashboard.

Lemma hours_sorted : StronglySorted Z.le (seqZ 0 24).
Proof.
  apply Sorted_StronglySorted; [apply _|].
  assert (seqZ 0 24 = [0; 1; 2; 3; 4; 5; 6; 7; 8; 9; 10; 11; 12; 13; 14; 15; 16;
                        17; 18; 19; 20; 21; 22; 23]) as -> by reflexivity.
  repeat (constructor; try lia).
Qed.

Lemma length_hour_labels : length hour_labels = 24%nat.
Proof. reflexivity. Qed.

Lemma length_sort_index {V} (series : list (Z * V)) :
  length (sort_index series) = length series.
Proof. apply Permutation_length, sort_by_Permutation. Qed.

Lemma length_value_counts `{EqDecision K} (column : list (option K)) :
  length (value_counts column) = length (uniques (omap id column)).
Proof.
  rewrite <- (length_fmap fst). apply Permutation_length, value_counts_index.
Qed.

(** With incidents in every hour of the day, the sorted counts are the
    counts of the hours 0 to 23 in this order. *)
Lemma hour_index_full (column : list (option Z)) :
  (∀ h, Some h ∈ column → 0 ≤ h < 24) →
  (∀ h, 0 ≤ h < 24 → Some h ∈ column) →
  sort_index (value_counts column)
  = map (λ h, (h, occurrences h (omap id column))) (seqZ 0 24).
Proof.
  intros Hrange Hcover.
  assert (∀ h, h ∈ uniques (omap id column) ↔ Some h ∈ column) as Hvalues.
  { intros h. rewrite uniques_elem, list_elem_of_omap. split.
    - intros (c & Hc & Heq). unfold id in Heq. by subst c.
    - intros Hin. by exists (Some h). }
  apply (StronglySorted_unique_strong index_asc).
  - intros [k1 v1] [k2 v2] Hin1 Hin2 Hle Hge. unfold index_asc in Hle, Hge.
    simpl in Hle, Hge. unfold sort_index in Hin1. rewrite sort_by_Permutation in Hin1.
    apply value_counts_elem in Hin1 as [_ ->].
    apply list_elem_of_fmap in Hin2 as (h & [= -> ->] & _).
    assert (k1 = h) as -> by lia. done.
  - apply sort_by_sorted; apply _.
  - eapply StronglySorted_fmap; [|exact hours_sorted]. by intros x y Hxy.
  - unfold sort_index. rewrite sort_by_Permutation, value_counts_Permutation.
    apply fmap_Permutation, NoDup_Permutation;
      [apply uniques_NoDup | apply NoDup_seqZ |].
    intros h. rewrite Hvalues, elem_of_seqZ. split; [|intros; apply Hcover; lia].
    intros Hin. specialize (Hrange h Hin). lia.
Qed.

(** With an hour of the day without incident, fewer than twenty-four
    hours have a count. *)
Lemma hour_index_short (column : list (option Z)) (h : Z) :
  (∀ h, Some h ∈ column → 0 ≤ h < 24) →
  0 ≤ h < 24 → Some h ∉ column →
  (length (sort_index (value_counts column)) < 24)%nat.
Proof.
  intros Hrange Hh Hout. rewrite length_sort_index, length_value_counts.
  assert (uniques (omap id column) ⊆+ seqZ 0 24) as Hsub.
  { apply NoDup_submseteq; [apply uniques_NoDup|].
    intros k [c [Hc Heq]]%uniques_elem%list_elem_of_omap.
    unfold id in Heq. subst c. apply elem_of_seqZ. specialize (Hrange k Hc). lia. }
  destruct (decide (length (uniques (omap id column)) < 24)%nat) as [|Hfull];
    [done|].
  apply submseteq_length_Permutation in Hsub; [|rewrite length_seqZ; lia].
  destruct Hout.
  assert (h ∈ uniques (omap id column)) as Hin
    by (rewrite Hsub; apply elem_of_seqZ; lia).
  apply uniques_elem, list_elem_of_omap in Hin as (c & Hc & Heq).
  unfold id in Heq. by subst c.
Qed.

(** The two cases of the hour chart. *)
Lemma hour_counts_returns (data : list Incident) :
  (∀ r h, r ∈ data → hour r = Some h → 0 ≤ h < 24) →
  (∀ h, 0 ≤ h < 24 → ∃ r, r ∈ data ∧ hour r = Some h) →
  hour_counts data
  = Returns (zip hour_labels (map (incidents_at_hour data) (seqZ 0 24))).
Proof.
  intros Hrange Hcover. unfold hour_counts, set_index.
  rewrite hour_index_full.
  - rewrite decide_True by (by rewrite length_map, length_seqZ).
    rewrite <- list_fmap_compose. do 2 f_equal.
    apply list_fmap_ext. intros _ h _. simpl.
    apply (occurrences_column hour).
  - intros h (r & Hh & Hr)%list_elem_of_fmap. by apply (Hrange r).
  - intros h Hh. destruct (Hcover h Hh) as (r & Hr & Heq).
    apply list_elem_of_fmap. by exists r.
Qed.

Lemma hour_counts_raises (data : list Incident) (h : Z) :
  (∀ r h, r ∈ data → hour r = Some h → 0 ≤ h < 24) →
  0 ≤ h < 24 → (∀ r, r ∈ data → hour r ≠ Some h) →
  ∃ e, hour_counts data = Raises e.
Proof.
  intros Hrange Hh Hnone. unfold hour_counts, set_index.
  assert (Some h ∉ map hour data) as Hout.
  { intros (r & Heq & Hr)%list_elem_of_fmap. by apply (Hnone r). }
  assert (∀ h, Some h ∈ map hour data → 0 ≤ h < 24) as Hcolumn.
  { intros k (r & Hk & Hr)%list_elem_of_fmap. by apply (Hrange r). }
  pose proof (hour_index_short (map hour data) h Hcolumn Hh Hout) as Hshort.
  rewrite decide_False; [by eexists|]. rewrite length_hour_labels. lia.
Qed.

(** X3: in a collection whose hours are hours of the day, the hour chart
    is drawn when and only when every hour from 0 to 23 has an incident.
    It then pairs the twenty-four labels, in the order of [hour_labels],
    with the exact numbers of incidents of the hours 0 to 23; when some
    hour has no incident, assigning the labels raises. *)
Theorem hour_counts_needs_every_hour (data : list Incident) :
  (∀ r h, r ∈ data → hour r = Some h → 0 ≤ h < 24) →
  ((∀ h, 0 ≤ h < 24 → ∃ r, r ∈ data ∧ hour r = Some h) →
   hour_counts data
   = Returns (zip hour_labels (map (incidents_at_hour data) (seqZ 0 24))))
  ∧ (∀ h, 0 ≤ h < 24 → (∀ r, r ∈ data → hour r ≠ Some h) →
          ∃ e, hour_counts data = Raises e).
Proof.
  intros Hrange. split.
  - by apply hour_counts_returns.
  - intros h. by apply hour_counts_raises.
Qed.

End HourChart.

(** The sample of a full day has incidents in every hour. *)
Lemma hour_counts_needs_every_hour_witness :
  Dashboard.hour_counts Sample.around_the_clock
  = Returns (zip Dashboard.hour_labels
               (map (Dashboard.incidents_at_hour Sample.around_the_clock)
                    (seqZ 0 24))).
Proof.
  refine (proj1 (hour_counts_needs_every_hour Sample.around_the_clock _) _).
  - intros r h (x & -> & Hx)%list_elem_of_fmap [= <-].
    apply elem_of_app in Hx as [Hx|Hx].
    + apply elem_of_seqZ in Hx. lia.
    + repeat (apply elem_of_cons in Hx as [->|Hx]); try lia.
      by apply elem_of_nil in Hx.
  - intros h Hh. exists (Sample.at_hour h). split; [|done].
    apply list_elem_of_fmap. exists h. split; [done|].
    apply elem_of_app. left. apply elem_of_seqZ. lia.
Defined.

(** ** The loader and the run of [main.py] *)

Section DashboardRun.
Context {F : Dashboard.Folium}.
Import Dashboard.

Lemma load_data_run (w : World) :
  load_data w
  = match database w with
    | inl e => (Raises e, count_query w)
    | inr table =>
        match to_datetime (map Date (filter (λ r, located r = true) table)) with
        | Raises e => (Raises e, count_query w)
        | Returns dates =>
            (Returns (zip_with derive (filter (λ r, located r = true) table) dates),
             count_query w)
        end
    end.
Proof.
  unfold load_data, bind, read_sql_query, lift, ret.
  destruct (database w) as [e|table]; [done|].
  by destruct (to_datetime _).
Qed.

Lemma load_data_world (w : World) : (load_data w).2 = count_query w.
Proof.
  rewrite load_data_run. destruct (database w); [done|].
  by destruct (to_datetime _).
Qed.

(** The dates [pd.to_datetime] returns: one for each cell, NaT for a
    NULL. *)
Lemma to_datetime_null (column : list date_cell) (dates : list (option Timestamp)) :
  to_datetime column = Returns dates →
  length dates = length column
  ∧ ∀ i, column !! i = Some DateNull → dates !! i = Some None.
Proof.
  revert dates. induction column as [|c column IH]; intros dates; simpl.
  - intros [= <-]. split; [done|]. intros i Hi. by rewrite lookup_nil in Hi.
  - destruct (to_datetime_cell c) as [d|e] eqn:Hc; [|done].
    destruct (to_datetime column) as [ds|e]; [|done].
    intros [= <-]. destruct (IH ds eq_refl) as [Hlength Hnull].
    split; [simpl; by rewrite Hlength|].
    intros [|i] Hi; simpl in *; [|by apply Hnull].
    injection Hi as ->. simpl in Hc. by injection Hc as <-.
Qed.

Lemma zip_with_derive_rows (rows : list Homicide) (dates : list (option Timestamp)) :
  length dates = length rows →
  map row (zip_with derive rows dates) = rows
  ∧ map date (zip_with derive rows dates) = dates.
Proof.
  revert dates. induction rows as [|r rows IH]; intros [|d dates] Hlength;
    simpl in *; try done.
  destruct (IH dates) as [-> ->]; [lia|]. done.
Qed.

(** X4: when the loader of the dashboard returns, it has made one query
    and printed nothing, and its frame has one row for each table row with
    both coordinates, in the order of the table, with no other row; every
    row of the frame carries the day name, hour, month name and season
    derived from its own date, and the date of a row whose [Date] is NULL
    is NaT. *)
Theorem load_data_frame (w w' : World) (table : list Homicide) (data : list Incident) :
  database w = inr table →
  load_data w = (Returns data, w') →
  w' = count_query w
  ∧ stdout w' = stdout w
  ∧ map row data = filter (λ r, located r = true) table
  ∧ (∀ r, r ∈ data → r = derive (row r) (date r))
  ∧ (∀ r, r ∈ data → Date (row r) = DateNull → date r = None).
Proof.
  intros Hdb. rewrite load_data_run, Hdb.
  destruct (to_datetime _) as [dates|e] eqn:Hdates; [|done].
  intros [= <- <-]. apply to_datetime_null in Hdates as [Hlength Hnull].
  rewrite length_map in Hlength.
  destruct (zip_with_derive_rows _ _ Hlength) as [Hrows Hcolumn].
  split; [done|]. split; [done|]. split; [done|].
  set (rows := filter (λ r, located r = true) table) in *. clearbody rows.
  split.
  - intros r (i & Hi)%list_elem_of_lookup_1.
    apply lookup_zip_with_Some in Hi as (x & d & -> & _ & _). done.
  - intros r (i & Hi)%list_elem_of_lookup_1 Hnone.
    apply lookup_zip_with_Some in Hi as (x & d & -> & Hx & Hd).
    cbn [row date derive] in *.
    specialize (Hnull i). rewrite list_lookup_fmap, Hx in Hnull. simpl in Hnull.
    rewrite Hnone in Hnull. specialize (Hnull eq_refl). congruence.
Qed.

(** X5: the rows without coordinates have no part in what the loader of
    the dashboard does: two tables with the same rows with both
    coordinates, in the same order, give the same frame, or the same
    exception.  A date of a row without coordinates is never read. *)
Theorem load_data_ignores_unlocated (w1 w2 : World) (table1 table2 : list Homicide) :
  database w1 = inr table1 → database w2 = inr table2 →
  filter (λ r, located r = true) table1 = filter (λ r, located r = true) table2 →
  (load_data w1).1 = (load_data w2).1.
Proof.
  intros Hdb1 Hdb2 Hrows. rewrite !load_data_run, Hdb1, Hdb2, Hrows.
  by destruct (to_datetime _).
Qed.

(** The run of [main], by what the loader, the chart renderer and the
    map renderer do. *)
Lemma main_run (w : World) :
  main w
  = match load_data (log "Loading data..." w) with
    | (Raises e, w1) => (Raises e, w1)
    | (Returns data, w1) =>
        match create_analytics_html data with
        | Raises e =>
            (Raises e, log "Creating analytics..." (log "Creating map..." w1))
        | Returns analytics =>
            match render (add_control_panel
                            (add_layer_control (create_layers data initialize_map).2))
            with
            | Some e =>
                (Raises e,
                 log "Saving dashboard..."
                   (log "Creating analytics..." (log "Creating map..." w1)))
            | None =>
                (Returns (),
                 log "Done! Open chicago_homicides_dashboard.html in your web browser to view the dashboard."
                   (log "Dashboard has been saved as chicago_homicides_dashboard.html"
                      (write_file "chicago_homicides_dashboard.html"
                         (Html (mkDocument
                                  (add_control_panel
                                     (add_layer_control
                                        (create_layers data initialize_map).2))
                                  analytics))
                         (log "Saving dashboard..."
                            (log "Creating analytics..."
                               (log "Creating map..." w1))))))
            end
        end
    end.
Proof.
  unfold main, bind, print, lift, save_dashboard.
  destruct (load_data _) as [[data|e] w1]; [|done].
  destruct (create_layers data initialize_map) as [[clusters heatmaps] m].
  destruct (create_analytics_html data); [|done].
  cbn [snd]. by destruct (render _).
Qed.


(** X7: once the loader has returned a frame, whose hours are hours of
    the day, the run of the dashboard script depends on these hours and
    on the map renderer.  With an incident in every hour of the day, and
    the map rendered without exception, it returns, having printed its six
    lines and saved the map with the four charts; with an hour without
    incident it raises after "Creating analytics...", when the data is
    loaded and the map built, and the dashboard is not written. *)
Theorem dashboard_run_needs_every_hour (w : World) (data : list Incident) :
  (load_data (log "Loading data..." w)).1 = Returns data →
  (∀ r h, r ∈ data → hour r = Some h → 0 ≤ h < 24) →
  ((∀ h, 0 ≤ h < 24 → ∃ r, r ∈ data ∧ hour r = Some h) →
   render (add_control_panel (add_layer_control (create_layers data initialize_map).2))
   = None →
   main w
   = (Returns (),
      log "Done! Open chicago_homicides_dashboard.html in your web browser to view the dashboard."
        (log "Dashboard has been saved as chicago_homicides_dashboard.html"
           (write_file "chicago_homicides_dashboard.html"
              (Html (mkDocument
                       (add_control_panel
                          (add_layer_control (create_layers data initialize_map).2))
                       (mkAnalytics
                          (dow_counts data)
                          (location_counts data)
                          (zip hour_labels (map (incidents_at_hour data) (seqZ 0 24)))
                          (season_counts data))))
              (log "Saving dashboard..."
                 (log "Creating analytics..."
                    (log "Creating map..."
                       (count_query (log "Loading data..." w)))))))))
  ∧ (∀ h, 0 ≤ h < 24 → (∀ r, r ∈ data → hour r ≠ Some h) →
          ∃ e, main w
               = (Raises e,
                  log "Creating analytics..."
                    (log "Creating map..."
                       (count_query (log "Loading data..." w))))).
Proof.
  intros Hload Hrange.
  pose proof (load_data_world (log "Loading data..." w)) as Hw1.
  rewrite main_run.
  destruct (load_data _) as [o w1]. simpl in Hload, Hw1. subst o w1.
  unfold create_analytics_html. split.
  - intros Hcover Hrender. by rewrite hour_counts_returns, Hrender.
  - intros h Hh Hnone.
    destruct (hour_counts_raises data h Hrange Hh Hnone) as [e ->].
    by exists e.
Qed.

End DashboardRun.

(** The frame of the sample table: the three rows with both coordinates,
    the third without date. *)
Lemma load_data_frame_witness :
  ∃ data, Dashboard.load_data Sample.dashboard_world
          = (Returns data, Dashboard.count_query Sample.dashboard_world)
          ∧ map Dashboard.row data = [Sample.h1; Sample.h2; Sample.h3]
          ∧ map Dashboard.date data
            = [Some Sample.monday_noon; Some Sample.summer_night; None].
Proof.
  exists Sample.incidents.
  destruct (load_data_frame Sample.dashboard_world
              (Dashboard.count_query Sample.dashboard_world)
              Sample.table Sample.incidents eq_refl eq_refl)
    as (_ & _ & Hrows & _).
  split; [reflexivity|]. split; [exact Hrows | reflexivity].
Defined.

(** The sample table with and without [h4], its row without latitude:
    the same frame. *)
Lemma load_data_ignores_unlocated_witness :
  (Dashboard.load_data Sample.dashboard_world).1
  = (Dashboard.load_data
       (Dashboard.mkWorld (inr [Sample.h1; Sample.h2; Sample.h3])
                          Sample.dashboard_disk [] 0)).1.
Proof.
  exact (load_data_ignores_unlocated Sample.dashboard_world
           (Dashboard.mkWorld (inr [Sample.h1; Sample.h2; Sample.h3])
                              Sample.dashboard_disk [] 0)
           Sample.table [Sample.h1; Sample.h2; Sample.h3] eq_refl eq_refl eq_refl).
Defined.


(** The table of a full day: the run returns and saves the dashboard. *)
Lemma dashboard_run_needs_every_hour_witness :
  (Dashboard.main (F := Sample.dashboard_folium) Sample.dashboard_full_day).1
  = Returns ()
  ∧ ∃ doc,
      Dashboard.files
        (Dashboard.main (F := Sample.dashboard_folium) Sample.dashboard_full_day).2
        !! "chicago_homicides_dashboard.html"%string
      = Some (Dashboard.Html doc).
Proof.
  destruct (dashboard_run_needs_every_hour (F := Sample.dashboard_folium)
              Sample.dashboard_full_day
              (map (λ h, Dashboard.derive (Sample.clock_row h)
                           (Some (mkTimestamp 2024 1 1 h 0 0))) (seqZ 0 24))
              eq_refl) as [Hreturns _].
  - intros r h (x & -> & Hx)%list_elem_of_fmap [= <-].
    apply elem_of_seqZ in Hx. lia.
  - rewrite Hreturns.
    + split; [done|]. cbn [snd Dashboard.files Dashboard.log Dashboard.write_file].
      rewrite lookup_insert_eq. by eexists.
    + intros h Hh.
      exists (Dashboard.derive (Sample.clock_row h)
                (Some (mkTimestamp 2024 1 1 h 0 0))).
      split; [|reflexivity].
      apply list_elem_of_fmap. exists h. split; [done|]. apply elem_of_seqZ. lia.
    + reflexivity.
Defined.

(** ** More on the year layers *)

Section YearLayers.
Import Dashboard.

(** X8: an incident of one of the years 2020 to 2024 is drawn by exactly
    two layers of the map: the cluster layer and the heat-map layer named
    after its year are both on the map, each holds the incidents of that
    year, the incident among them, and no layer at another position of
    the map holds it. *)
Theorem year_layers_hold_their_year (data : list Incident) (r : Incident) (year : Z) :
  r ∈ data → Year (row r) = Some year → 2020 ≤ year ≤ 2024 →
  ∃ i j : nat,
    i ≠ j
    ∧ layers (create_layers data initialize_map).2 !! i
      = Some (mkLayer ("cluster_year_" ++ pretty year) Cluster (year_data data year))
    ∧ layers (create_layers data initialize_map).2 !! j
      = Some (mkLayer ("heatmap_year_" ++ pretty year) Heatmap (year_data data year))
    ∧ r ∈ year_data data year
    ∧ ∀ k l, layers (create_layers data initialize_map).2 !! k = Some l →
             r ∈ layer_rows l → k = i ∨ k = j.
Proof.
  intros Hr Hyear Hrange. rewrite create_layers_layers.
  assert (year = 2020 ∨ year = 2021 ∨ year = 2022 ∨ year = 2023 ∨ year = 2024)
    as Hcases by lia.
  assert (∀ y, r ∈ year_data data y ↔ y = year) as Hrows.
  { intros y. unfold year_data. rewrite list_elem_of_filter, Hyear.
    split; [intros [Heq _]; congruence | by intros ->]. }
  assert (∀ k l,
               [mkLayer "cluster_year_2020" Cluster (year_data data 2020);
                mkLayer "heatmap_year_2020" Heatmap (year_data data 2020);
                mkLayer "cluster_year_2021" Cluster (year_data data 2021);
                mkLayer "heatmap_year_2021" Heatmap (year_data data 2021);
                mkLayer "cluster_year_2022" Cluster (year_data data 2022);
                mkLayer "heatmap_year_2022" Heatmap (year_data data 2022);
                mkLayer "cluster_year_2023" Cluster (year_data data 2023);
                mkLayer "heatmap_year_2023" Heatmap (year_data data 2023);
                mkLayer "cluster_year_2024" Cluster (year_data data 2024);
                mkLayer "heatmap_year_2024" Heatmap (year_data data 2024)] !! k
               = Some l →
               r ∈ layer_rows l →
               Z.of_nat k = 2 * (year - 2020) ∨ Z.of_nat k = 2 * (year - 2020) + 1)
    as Hothers.
  { intros k l Hk Hl.
    do 10 (destruct k as [|k];
           [injection Hk as <-; cbn [layer_rows] in Hl; apply Hrows in Hl; lia
           |simpl in Hk]).
    by rewrite lookup_nil in Hk. }
  destruct Hcases as [-> | [-> | [-> | [-> | ->]]]].
  - exists 0%nat, 1%nat. split; [done|]. split; [reflexivity|].
    split; [reflexivity|]. split; [by apply Hrows|].
    intros k l Hk Hl. specialize (Hothers k l Hk Hl). lia.
  - exists 2%nat, 3%nat. split; [done|]. split; [reflexivity|].
    split; [reflexivity|]. split; [by apply Hrows|].
    intros k l Hk Hl. specialize (Hothers k l Hk Hl). lia.
  - exists 4%nat, 5%nat. split; [done|]. split; [reflexivity|].
    split; [reflexivity|]. split; [by apply Hrows|].
    intros k l Hk Hl. specialize (Hothers k l Hk Hl). lia.
  - exists 6%nat, 7%nat. split; [done|]. split; [reflexivity|].
    split; [reflexivity|]. split; [by apply Hrows|].
    intros k l Hk Hl. specialize (Hothers k l Hk Hl). lia.
  - exists 8%nat, 9%nat. split; [done|]. split; [reflexivity|].
    split; [reflexivity|]. split; [by apply Hrows|].
    intros k l Hk Hl. specialize (Hothers k l Hk Hl). lia.
Qed.

(** X9: [create_layers] only adds to the map it is given: the layers and
    elements that were on it stay in front, in their order, followed by
    the ten layers and five click scripts of a fresh map, and the layer
    control is as it was; the two dictionaries it returns do not depend on
    the map. *)
Theorem create_layers_only_adds (data : list Incident) (map_object : Map) :
  layers (create_layers data map_object).2
  = layers map_object ++ layers (create_layers data initialize_map).2
  ∧ elements (create_layers data map_object).2
    = elements map_object ++ elements (create_layers data initialize_map).2
  ∧ layer_control (create_layers data map_object).2 = layer_control map_object
  ∧ (create_layers data map_object).1 = (create_layers data initialize_map).1.
Proof.
  unfold create_layers.
  change (seqZ 2020 5) with [2020; 2021; 2022; 2023; 2024].
  cbn [foldl add_year_layers layers elements layer_control initialize_map fst snd].
  rewrite <- !app_assoc. done.
Qed.

(** The dictionaries [create_layers] returns. *)
Lemma create_layers_dictionaries (data : list Incident) (map_object : Map) :
  (create_layers data map_object).1
  = (<["2024" := mkLayer "cluster_year_2024" Cluster (year_data data 2024)]>
       (<["2023" := mkLayer "cluster_year_2023" Cluster (year_data data 2023)]>
          (<["2022" := mkLayer "cluster_year_2022" Cluster (year_data data 2022)]>
             (<["2021" := mkLayer "cluster_year_2021" Cluster (year_data data 2021)]>
                (<["2020" := mkLayer "cluster_year_2020" Cluster
                                     (year_data data 2020)]> ∅)))),
     <["2024" := mkLayer "heatmap_year_2024" Heatmap (year_data data 2024)]>
       (<["2023" := mkLayer "heatmap_year_2023" Heatmap (year_data data 2023)]>
          (<["2022" := mkLayer "heatmap_year_2022" Heatmap (year_data data 2022)]>
             (<["2021" := mkLayer "heatmap_year_2021" Heatmap (year_data data 2021)]>
                (<["2020" := mkLayer "heatmap_year_2020" Heatmap
                                     (year_data data 2020)]> ∅))))).
Proof. reflexivity. Qed.

(** X10: the two dictionaries [create_layers] returns have the same keys,
    which are the options of the year selector of the control panel other
    than "all"; at the key of a year each holds the layer of its kind for
    that year. *)
Theorem year_dictionaries (data : list Incident) (map_object : Map) (key : string) :
  (is_Some ((create_layers data map_object).1.1 !! key)
   ↔ key ∈ year_options ∧ key ≠ "all"%string)
  ∧ (is_Some ((create_layers data map_object).1.2 !! key)
     ↔ key ∈ year_options ∧ key ≠ "all"%string)
  ∧ (∀ l, (create_layers data map_object).1.1 !! key = Some l →
          layer_name l = ("cluster_year_" ++ key)%string ∧ kind l = Cluster
          ∧ ∃ year, pretty year = key ∧ layer_rows l = year_data data year)
  ∧ (∀ l, (create_layers data map_object).1.2 !! key = Some l →
          layer_name l = ("heatmap_year_" ++ key)%string ∧ kind l = Heatmap
          ∧ ∃ year, pretty year = key ∧ layer_rows l = year_data data year).
Proof.
  rewrite create_layers_dictionaries. cbn [fst snd]. unfold year_options.
  assert (∀ (a b c d e : Layer),
    is_Some (<["2024" := a]> (<["2023" := b]> (<["2022" := c]>
               (<["2021" := d]> (<["2020" := e]> (∅ : gmap string Layer))))) !! key)
    ↔ key ∈ ["all"; "2020"; "2021"; "2022"; "2023"; "2024"]%string
      ∧ key ≠ "all"%string) as Hkeys.
  { intros a b c d e.
    rewrite !lookup_insert_is_Some, lookup_empty, !elem_of_cons, elem_of_nil.
    pose proof (@is_Some_None Layer) as Hnone. split.
    - intros Hkey.
      repeat (destruct Hkey as [<-|[_ Hkey]]); [split; [intuition|done] ..|].
      by destruct Hkey.
    - intros [Hin Hall].
      destruct (decide ("2024"%string = key)); [tauto|].
      destruct (decide ("2023"%string = key)); [tauto|].
      destruct (decide ("2022"%string = key)); [tauto|].
      destruct (decide ("2021"%string = key)); [tauto|].
      destruct (decide ("2020"%string = key)); [tauto|].
      exfalso. repeat destruct Hin as [Hin|Hin]; congruence. }
  split; [apply Hkeys|]. split; [apply Hkeys|]. split.
  - intros l Hl.
    repeat (rewrite lookup_insert in Hl; case_decide; simplify_eq);
      (split; [done|]; split; [done|]).
    + by exists 2024.
    + by exists 2023.
    + by exists 2022.
    + by exists 2021.
    + by exists 2020.
  - intros l Hl.
    repeat (rewrite lookup_insert in Hl; case_decide; simplify_eq);
      (split; [done|]; split; [done|]).
    + by exists 2024.
    + by exists 2023.
    + by exists 2022.
    + by exists 2021.
    + by exists 2020.
Qed.

End YearLayers.

(** The sample incident of 2024 is drawn by the two layers of 2024, the
    last two of the map, and by no other. *)
Lemma year_layers_hold_their_year_witness :
  ∃ i j : nat,
    i ≠ j
    ∧ Dashboard.layers
        (Dashboard.create_layers Sample.incidents Dashboard.initialize_map).2 !! i
      = Some (Dashboard.mkLayer "cluster_year_2024" Dashboard.Cluster
                [Sample.incident_2024])
    ∧ Dashboard.layers
        (Dashboard.create_layers Sample.incidents Dashboard.initialize_map).2 !! j
      = Some (Dashboard.mkLayer "heatmap_year_2024" Dashboard.Heatmap
                [Sample.incident_2024])
    ∧ ∀ k l,
        Dashboard.layers
          (Dashboard.create_layers Sample.incidents Dashboard.initialize_map).2 !! k
        = Some l →
        Sample.incident_2024 ∈ Dashboard.layer_rows l → k = i ∨ k = j.
Proof.
  destruct (year_layers_hold_their_year Sample.incidents Sample.incident_2024 2024
              (list_elem_of_here _ _) eq_refl ltac:(lia))
    as (i & j & Hij & Hi & Hj & _ & Hothers).
  exists i, j. split; [exact Hij|]. split; [exact Hi|]. split; [exact Hj|].
  exact Hothers.
Defined.

(** ** The control panel *)

Section Panel.
Import Dashboard ControlPanel.

(** After the body of the loop the checkbox of an entry is what
    [shouldBeVisible] says, whatever it was. *)
Lemma update_overlay_spec (mode : bool) (selectedYear : string) (o : Overlay) :
  update_overlay mode selectedYear o
  = mkOverlay (layerName o) (shouldBeVisible mode selectedYear (layerName o)).
Proof.
  unfold update_overlay, click.
  destruct o as [name [|]]; cbn [layerName checked];
    by destruct (shouldBeVisible mode selectedYear name).
Qed.

Lemma overlays_updateLayers (selectedYear : string) (page : Page) :
  overlays (updateLayers selectedYear page)
  = map (λ name, mkOverlay name
                   (shouldBeVisible (isHeatmapMode page) selectedYear name))
        (map layerName (overlays page)).
Proof.
  unfold updateLayers. cbn [overlays]. rewrite <- list_fmap_compose.
  apply list_fmap_ext. intros _ o _. apply update_overlay_spec.
Qed.

Lemma layerName_updateLayers (selectedYear : string) (page : Page) :
  map layerName (overlays (updateLayers selectedYear page))
  = map layerName (overlays page).
Proof.
  rewrite overlays_updateLayers, <- list_fmap_compose.
  by rewrite (list_fmap_ext _ id _ (λ _ _ _, eq_refl)), list_fmap_id.
Qed.

(** X11: [updateLayers] keeps the entries and their labels and leaves
    each checkbox ticked exactly when the entry should be visible for the
    selected year and the current mode, whatever the checkboxes were
    before; running it again changes nothing. *)
Theorem updateLayers_sets_visibility (selectedYear : string) (page : Page) :
  map layerName (overlays (updateLayers selectedYear page))
  = map layerName (overlays page)
  ∧ (∀ o, o ∈ overlays (updateLayers selectedYear page) →
          checked o
          = shouldBeVisible (isHeatmapMode page) selectedYear (layerName o))
  ∧ (∀ before after,
        map layerName before = map layerName (overlays page) →
        after = mkPage before (isHeatmapMode page) (yearSelect page)
                       (toggleButton page) →
        updateLayers selectedYear after = updateLayers selectedYear page)
  ∧ updateLayers selectedYear (updateLayers selectedYear page)
    = updateLayers selectedYear page.
Proof.
  assert (∀ p q, isHeatmapMode p = isHeatmapMode q → yearSelect p = yearSelect q →
                 toggleButton p = toggleButton q →
                 map layerName (overlays p) = map layerName (overlays q) →
                 updateLayers selectedYear p = updateLayers selectedYear q) as Hsame.
  { intros p q Hmode Hyear Hbutton Hnames.
    pose proof (overlays_updateLayers selectedYear p) as Hp.
    pose proof (overlays_updateLayers selectedYear q) as Hq.
    rewrite Hmode, Hnames, <- Hq in Hp.
    unfold updateLayers in *. cbn [overlays] in Hp.
    by rewrite Hp, Hmode, Hyear, Hbutton. }
  split; [apply layerName_updateLayers|]. split; [|split].
  - intros o. rewrite overlays_updateLayers.
    intros (name & -> & _)%list_elem_of_fmap. done.
  - intros before after Hnames ->. by apply Hsame.
  - apply Hsame; try done. apply layerName_updateLayers.
Qed.

(** X12: pressing the view button twice brings back the mode, and leaves
    the checkboxes as "Update Year" would; after every press the button
    names the view that the next press switches to. *)
Theorem toggleViewMode_twice (page : Page) :
  toggleViewMode (toggleViewMode page)
  = mkPage (overlays (filterByYear page)) (isHeatmapMode page) (yearSelect page)
           (if isHeatmapMode page then "Switch to Cluster View"
            else "Switch to Heatmap View")
  ∧ isHeatmapMode (toggleViewMode page) = negb (isHeatmapMode page)
  ∧ toggleButton (toggleViewMode page)
    = (if isHeatmapMode page then "Switch to Heatmap View"
       else "Switch to Cluster View").
Proof.
  split; [|split].
  - unfold toggleViewMode, filterByYear, updateLayers.
    cbn [overlays isHeatmapMode yearSelect toggleButton].
    rewrite negb_involutive. f_equal.
    rewrite <- list_fmap_compose. apply list_fmap_ext. intros _ o _.
    unfold compose. by rewrite !update_overlay_spec.
  - done.
  - unfold toggleViewMode, updateLayers. cbn [toggleButton isHeatmapMode].
    by destruct (isHeatmapMode page).
Qed.

End Panel.

Section PanelAndLayers.
Import Dashboard ControlPanel.

(** X13: on a page whose layer control lists the layers of the map of
    [create_layers], choosing a year from 2020 to 2024 and pressing
    "Update Year" leaves exactly one layer shown, the layer of that year
    in the current view (cluster or heat map), whatever was shown before;
    choosing "all" leaves the five layers of the current view shown, in
    the order of the years. *)
Theorem select_year_shows_that_year (data : list Incident) (page : Page) (year : Z) :
  map layerName (overlays page)
  = map layer_name (layers (create_layers data initialize_map).2) →
  2020 ≤ year ≤ 2024 →
  shown (create_layers data initialize_map).2 (select_year (pretty year) page)
  = [mkLayer
       ((if isHeatmapMode page then "heatmap_year_" else "cluster_year_")
        ++ pretty year)%string
       (if isHeatmapMode page then Heatmap else Cluster)
       (year_data data year)]
  ∧ shown (create_layers data initialize_map).2 (select_year "all" page)
    = map (λ y, mkLayer
                  ((if isHeatmapMode page then "heatmap_year_" else "cluster_year_")
                   ++ pretty y)%string
                  (if isHeatmapMode page then Heatmap else Cluster)
                  (year_data data y))
          (seqZ 2020 5).
Proof.
  intros Hnames Hrange.
  assert (year = 2020 ∨ year = 2021 ∨ year = 2022 ∨ year = 2023 ∨ year = 2024)
    as Hcases by lia.
  unfold shown, select_year, filterByYear.
  cbn [yearSelect]. rewrite !overlays_updateLayers.
  cbn [overlays isHeatmapMode]. rewrite Hnames, create_layers_layers.
  destruct (isHeatmapMode page);
    destruct Hcases as [-> | [-> | [-> | [-> | ->]]]]; split; reflexivity.
Qed.

End PanelAndLayers.

(** On the sample page, choosing 2024 leaves the cluster layer of 2024
    shown, with the one sample incident of that year. *)
Lemma select_year_shows_that_year_witness :
  ControlPanel.shown
    (Dashboard.create_layers Sample.incidents Dashboard.initialize_map).2
    (ControlPanel.select_year "2024" Sample.page)
  = [Dashboard.mkLayer "cluster_year_2024" Dashboard.Cluster [Sample.incident_2024]].
Proof.
  refine (proj1 (select_year_shows_that_year Sample.incidents Sample.page 2024 _ _)).
  - reflexivity.
  - lia.
Defined.

(** ** The run of [hotspots.py] *)

#[local] Existing Instance Hotspots.by_count_desc_dec.

#[local] Instance by_count_desc_trans : Transitive Hotspots.by_count_desc.
Proof. intros a b c. unfold Hotspots.by_count_desc. lia. Qed.

#[local] Instance by_count_desc_total : Total Hotspots.by_count_desc.
Proof. intros a b. unfold Hotspots.by_count_desc. lia. Qed.

Section ChoroplethProperties.
Context `{Geometry} {F : Hotspots.Folium}.
Import Hotspots.

(** [main] prints its first line and runs the pipeline; when the
    pipeline returns it prints its last line, and when the pipeline raises
    it prints the line of the handler and raises again. *)
Lemma hotspots_main_run (w : World) :
  main w
  = match create_chloropleth_map (log (Text "Starting hotspot analysis...") w) with
    | (Returns _, w') =>
        (Returns (),
         log (Text (newline ++ "Analysis complete! Open chicago_crime_hotspots.html in your web browser to view the map.")%string)
           w')
    | (Raises e, w') =>
        (Raises e, log (Text ("An error occurred: " ++ exn_str e)%string) w')
    end.
Proof.
  unfold main, try_except, bind, print, raise.
  by destruct (create_chloropleth_map _) as [[[]|e] w'].
Qed.

(** [main] leaves the sources, the counters and the files as the
    pipeline leaves them. *)
Lemma hotspots_main_frame (w : World) :
  endpoint (main w).2 = endpoint w
  ∧ database (main w).2 = database w
  ∧ http_requests (main w).2 = S (http_requests w)
  ∧ sql_queries (main w).2 = S (sql_queries w)
  ∧ files (main w).2
    = files (create_chloropleth_map (log (Text "Starting hotspot analysis...") w)).2.
Proof.
  rewrite hotspots_main_run.
  destruct (create_chloropleth_map_frame (log (Text "Starting hotspot analysis...") w))
    as (Hnet & Hdb & Hrequests & Hqueries & _).
  cbn [endpoint database http_requests sql_queries log] in *.
  destruct (create_chloropleth_map _) as [[[]|e] w'];
    cbn [snd endpoint database files http_requests sql_queries log] in *; done.
Qed.

(** X14: when a source does not answer, the choropleth script does not
    fail: [main] returns, chicago_crime_hotspots.html is not touched (the
    files are as before, but for the database file, which connecting
    creates when it is absent), the output says that the required data
    could not be loaded, and its last line is nevertheless the line that
    announces the finished analysis and the map to open. *)
Theorem main_reports_completion_without_map (w : World) :
  (∃ e, endpoint w = inl e) ∨ (∃ e, database w = inl e) →
  ∃ w', main w = (Returns (), w')
        ∧ files w' = connect Database (files w)
        ∧ files w' !! output_file = files w !! output_file
        ∧ Text "Error: Could not load required data" ∈ stdout w'
        ∧ last (stdout w')
          = Some (Text (newline ++ "Analysis complete! Open chicago_crime_hotspots.html in your web browser to view the map.")%string).
Proof.
  intros Hfail. rewrite hotspots_main_run.
  rewrite create_chloropleth_map_failure by done.
  eexists. split; [reflexivity|]. cbn [files stdout log].
  destruct (after_loading_fields (log (Text "Starting hotspot analysis...") w))
    as (_ & _ & -> & _).
  cbn [files log].
  split; [done|]. split; [by apply connect_lookup_ne|].
  split; [|apply last_snoc].
  apply elem_of_app. left. apply elem_of_app. right. by left.
Qed.

(** X15: in every run of the choropleth script each source is asked
    exactly once, the database also when the boundaries could not be
    fetched, and the run leaves both sources as they were. *)
Theorem main_asks_each_source_once (w : World) :
  http_requests (main w).2 = S (http_requests w)
  ∧ sql_queries (main w).2 = S (sql_queries w)
  ∧ endpoint (main w).2 = endpoint w
  ∧ database (main w).2 = database w.
Proof.
  destruct (hotspots_main_frame w) as (Hnet & Hdb & Hrequests & Hqueries & _).
  done.
Qed.


(** X17: when both sources answer and folium raises nothing, the script
    returns and the saved map holds, for every polygon of the boundary set
    and in its order, the polygon with the exact number of located
    incidents within it and the density computed from that number; the
    ends of its colour scale are the least and the greatest density; and
    it has one heat-map point for every located incident, in the order of
    the table, which is the incident's point with the coordinates
    exchanged (latitude first). *)
Theorem saved_map_contents (w : World)
    (neighborhoods : list Feature) (table : list Homicide) :
  endpoint w = inr neighborhoods → database w = inr table →
  build_choropleth (choropleth (full_document neighborhoods table))
                   (color_vmin (full_document neighborhoods table))
                   (color_vmax (full_document neighborhoods table)) = None →
  build_heatmap (heat_data (full_document neighborhoods table)) = None →
  render (full_document neighborhoods table) = None →
  ∃ doc, (main w).1 = Returns ()
         ∧ files (main w).2 !! output_file = Some (Html doc)
         ∧ choropleth doc = map (annotated (incident_frame table)) neighborhoods
         ∧ color_vmin doc = series_min (map snd (choropleth doc))
         ∧ color_vmax doc = series_max (map snd (choropleth doc))
         ∧ heat_data doc
           = map (λ c, (point_y (geometry c), point_x (geometry c)))
                 (incident_frame table)
         ∧ length (heat_data doc)
           = length (filter (λ r, is_Some (Latitude r) ∧ is_Some (Longitude r)) table).
Proof.
  intros Hnet Hdb Hlayer Hheat Hrender. rewrite hotspots_main_run.
  rewrite (create_chloropleth_map_run _ neighborhoods table) by done.
  cbv zeta. rewrite Hlayer, Hheat, Hrender.
  cbn [fst snd files log write_file]. rewrite lookup_insert_eq.
  exists (full_document neighborhoods table). split; [done|]. split; [done|].
  cbn [full_document choropleth color_vmin color_vmax heat_data].
  split; [done|]. split; [done|]. split; [done|]. unfold incident_frame.
  split; [by rewrite <- !list_fmap_compose|].
  rewrite !length_map. f_equal. apply list_filter_iff.
  intros r. apply located_coordinates.
Qed.

(** X18: when both sources answer and folium raises nothing, the last
    thing the pipeline prints is the table of statistics.  It has a row
    for each polygon, or ten rows when there are more than ten polygons;
    every row gives the community, count and density of a polygon of the
    boundary set; the rows are in order of decreasing count; and a polygon
    that is not in the table has a count no larger than any count in
    it. *)
Theorem printed_statistics (w : World)
    (neighborhoods : list Feature) (table : list Homicide) :
  endpoint w = inr neighborhoods → database w = inr table →
  build_choropleth (choropleth (full_document neighborhoods table))
                   (color_vmin (full_document neighborhoods table))
                   (color_vmax (full_document neighborhoods table)) = None →
  build_heatmap (heat_data (full_document neighborhoods table)) = None →
  render (full_document neighborhoods table) = None →
  ∃ stats,
    last (stdout (create_chloropleth_map w).2) = Some (Table stats)
    ∧ length stats = min 10 (length neighborhoods)
    ∧ (∀ i j a b, (i < j)%nat → stats !! i = Some a → stats !! j = Some b →
                  b.1.2 ≤ a.1.2)
    ∧ (∀ row, row ∈ stats →
              ∃ nb, nb ∈ neighborhoods
                    ∧ row = (community nb,
                             (annotated (incident_frame table) nb).1.2,
                             (annotated (incident_frame table) nb).2))
    ∧ (∀ nb, nb ∈ neighborhoods →
             (community nb,
              (annotated (incident_frame table) nb).1.2,
              (annotated (incident_frame table) nb).2) ∈ stats
             ∨ ∀ s, s ∈ stats →
                    (annotated (incident_frame table) nb).1.2 ≤ s.1.2).
Proof.
  intros Hnet Hdb Hlayer Hheat Hrender.
  rewrite (create_chloropleth_map_run _ neighborhoods table) by done.
  cbv zeta. rewrite Hlayer, Hheat, Hrender.
  cbn [snd stdout log]. rewrite last_snoc.
  cbn [full_document choropleth].
  set (crime := incident_frame table).
  set (rows := map (λ '(f, c, d), (community f, c, d))
                   (map (annotated crime) neighborhoods)).
  assert (∀ row, row ∈ rows
                 ↔ ∃ nb, nb ∈ neighborhoods
                         ∧ row = (community nb, (annotated crime nb).1.2,
                                  (annotated crime nb).2)) as Hrows.
  { intros row. unfold rows. rewrite <- list_fmap_compose, list_elem_of_fmap.
    split; intros (nb & Heq & Hnb); exists nb; done. }
  pose proof (sort_by_sorted by_count_desc rows) as Hsorted.
  pose proof (sort_by_Permutation by_count_desc rows) as Hperm.
  eexists. split; [reflexivity|]. unfold nlargest. split; [|split; [|split]].
  - rewrite length_take, (Permutation_length Hperm). unfold rows.
    by rewrite !length_map.
  - intros i j a b Hij Hi Hj.
    rewrite <- (take_drop 10 (sort_by by_count_desc rows)) in Hsorted.
    apply StronglySorted_app_1_l in Hsorted.
    apply (sorted_lookup by_count_desc _ i j a b Hsorted Hij Hi Hj).
  - intros row [i [Hi _]]%elem_of_take. apply Hrows.
    rewrite <- Hperm. by eapply list_elem_of_lookup_2.
  - intros nb Hnb.
    assert ((community nb, (annotated crime nb).1.2, (annotated crime nb).2)
            ∈ sort_by by_count_desc rows) as Hin.
    { rewrite Hperm. apply Hrows. by exists nb. }
    rewrite <- (take_drop 10 (sort_by by_count_desc rows)) in Hin.
    apply elem_of_app in Hin as [Hin|Hin]; [by left|]. right. intros s Hs.
    apply (sorted_take_drop by_count_desc 10 _ s _ Hsorted Hs Hin).
Qed.

(** X19: the count column has one cell per polygon, and every count lies
    between zero and the number of incident points; with no incident
    point every count is zero. *)
Theorem crime_counts_range (neighborhoods : list Feature) (crime_data : list CrimeRow) :
  length (crime_counts neighborhoods crime_data) = length neighborhoods
  ∧ (∀ count, count ∈ crime_counts neighborhoods crime_data →
              0 ≤ count ≤ Z.of_nat (length crime_data))
  ∧ crime_counts neighborhoods [] = replicate (length neighborhoods) 0.
Proof.
  rewrite crime_counts_map. split; [apply length_map|]. split.
  - intros count (nb & -> & _)%list_elem_of_fmap. unfold points_within.
    pose proof (length_filter
                  (λ c, within (geometry c) (feature_geometry nb) = true)
                  crime_data).
    lia.
  - rewrite crime_counts_map. clear.
    induction neighborhoods as [|nb l IH]; simpl; [done|]. by rewrite IH.
Qed.

End ChoroplethProperties.

(** With the endpoint unreachable and no database, the script ends on
    its closing line; it has written no map, and connecting has created
    the database file. *)
Lemma main_reports_completion_without_map_witness :
  ∃ w', Hotspots.main (F := Sample.folium) Sample.all_down = (Returns (), w')
        ∧ Hotspots.files w' = Sample.disk
        ∧ Hotspots.files w' !! Hotspots.output_file = None
        ∧ Hotspots.Text "Error: Could not load required data" ∈ Hotspots.stdout w'.
Proof.
  destruct (main_reports_completion_without_map (F := Sample.folium) Sample.all_down
              (or_introl (ex_intro _ Sample.unreachable eq_refl)))
    as (w' & Hrun & Hfiles & Hfile & Hlog & _).
  exists w'. split; [exact Hrun|]. split; [exact Hfiles|].
  split; [exact Hfile | exact Hlog].
Defined.


(** The map saved for the sample world: two polygons and three heat-map
    points, latitude first. *)
Lemma saved_map_contents_witness :
  ∃ doc, Hotspots.files (Hotspots.main (F := Sample.folium) Sample.online).2
           !! Hotspots.output_file
         = Some (Hotspots.Html doc)
         ∧ map (λ row, row.1.2) (Hotspots.choropleth doc) = [2; 1]
         ∧ Hotspots.heat_data doc
           = [(41.9375%float, (-87.5625)%float);
              (41.8125%float, (-87.6875)%float);
              (41.75%float, (-87.625)%float)].
Proof.
  destruct (saved_map_contents (F := Sample.folium) Sample.online
              Sample.boundaries Sample.table eq_refl eq_refl eq_refl eq_refl eq_refl)
    as (doc & _ & Hfile & Hlayer & _ & _ & Hheat & _).
  exists doc. split; [exact Hfile|]. split.
  - rewrite Hlayer. reflexivity.
  - rewrite Hheat. reflexivity.
Defined.

(** The statistics printed for the sample world have two rows. *)
Lemma printed_statistics_witness :
  ∃ stats,
    last (Hotspots.stdout
            (Hotspots.create_chloropleth_map (F := Sample.folium) Sample.online).2)
    = Some (Hotspots.Table stats)
    ∧ length stats = 2%nat.
Proof.
  destruct (printed_statistics (F := Sample.folium) Sample.online
              Sample.boundaries Sample.table eq_refl eq_refl eq_refl eq_refl eq_refl)
    as (stats & Hlast & Hlength & _).
  exists stats. split; [exact Hlast | exact Hlength].
Defined.

(** ** The weekday chart in general *)

Section WeekdayChart.
Import Dashboard.

Lemma day_names_NoDup : NoDup day_names.
Proof. unfold day_names. repeat (constructor; [set_unfold; intuition discriminate|]). constructor. Qed.

(** [Timestamp.day_name()] is one of the seven names. *)
Lemma ts_day_name_in (t : Timestamp) : ts_day_name t ∈ day_names.
Proof.
  unfold ts_day_name, dayofweek.
  pose proof (Z.mod_pos_bound
                (days_from_civil (ts_year t) (ts_month t) (ts_day t) + 3) 7) as Hd.
  destruct (Z.to_nat _) as [|[|[|[|[|[|[|n]]]]]]] eqn:E; [..|lia];
    cbn; unfold day_names;
    repeat first [apply list_elem_of_here | apply list_elem_of_further].
Qed.

(** X20: the weekday chart always has the seven bars Monday to Sunday,
    in this order.  The bar of a day on which some incident fell holds the
    number of these incidents; the bar of a day without incident holds
    NaN, not zero. *)
Theorem weekday_chart_shape (data : list Incident) :
  (dow_counts data).*1 = day_names
  ∧ (∀ d n, (d, Some n) ∈ dow_counts data
            ↔ d ∈ day_names ∧ n = incidents_on data d
              ∧ ∃ r, r ∈ data ∧ day_name r = Some d)
  ∧ (∀ d, (d, None) ∈ dow_counts data
          ↔ d ∈ day_names ∧ ∀ r, r ∈ data → day_name r ≠ Some d).
Proof.
  rewrite dow_counts_spec. split; [|split].
  - rewrite <- list_fmap_compose. apply list_fmap_id.
  - intros d n. rewrite list_elem_of_fmap. split.
    + intros (d' & Heq & Hd). case_decide as Hin; [|done].
      injection Heq as -> ->. split; [done|]. split; [done|].
      apply list_elem_of_fmap in Hin as (r & Hr & Hin). by exists r.
    + intros (Hd & -> & r & Hr & Hday). exists d. split; [|done].
      rewrite decide_True; [done|]. apply list_elem_of_fmap. by exists r.
  - intros d. rewrite list_elem_of_fmap. split.
    + intros (d' & Heq & Hd). case_decide as Hin; [done|].
      injection Heq as ->. split; [done|]. intros r Hr Hday.
      apply Hin, list_elem_of_fmap. by exists r.
    + intros (Hd & Hnone). exists d. split; [|done].
      rewrite decide_False; [done|].
      intros (r & Hday & Hr)%list_elem_of_fmap. by apply (Hnone r).
Qed.

(** The bars of the weekday chart that hold a number add up to the
    numbers of incidents of the seven days: a NaN bar stands for a day
    without incident. *)
Lemma dow_counts_sum (data : list Incident) :
  column_sum (omap snd (dow_counts data))
  = column_sum (map (incidents_on data) day_names).
Proof.
  rewrite dow_counts_spec. generalize day_names. intros l.
  induction l as [|d l IH]; [done|]. cbn [map].
  case_decide as Hin.
  - change (omap snd ((d, Some (incidents_on data d)) :: ?rest))
      with (incidents_on data d :: omap snd rest).
    unfold column_sum in *. cbn [foldr]. by rewrite IH.
  - change (omap snd ((d, None) :: ?rest)) with (omap snd rest).
    assert (incidents_on data d = 0) as Hzero.
    { unfold incidents_on.
      destruct (filter (λ r, day_name r = Some d) data) as [|r rest] eqn:E; [done|].
      destruct Hin. apply list_elem_of_fmap. exists r.
      assert (r ∈ filter (λ r, day_name r = Some d) data) as Hr
        by (rewrite E; by left).
      apply list_elem_of_filter in Hr as [Hday Hr]. done. }
    unfold column_sum in *. cbn [foldr]. rewrite IH, Hzero. lia.
Qed.

(** X21: in a frame whose day names are derived from the dates, as in
    every frame [load_data] returns, the bars of the weekday chart
    ([dow_counts], NaN bars left out) add up to the number of incidents
    that have a date: the weekday chart leaves out the incidents without a
    date and no other. *)
Theorem weekday_counts_total (data : list Incident) :
  (∀ r, r ∈ data → day_name r = ts_day_name <$> date r) →
  column_sum (omap snd (dow_counts data))
  = Z.of_nat (length (filter (λ r, is_Some (date r)) data)).
Proof.
  intros Hderived. rewrite dow_counts_sum.
  assert (map (incidents_on data) day_names
          = map (λ d, Z.of_nat (length (filter (λ y, y = d)
                                          (omap id (map day_name data)))))
                day_names) as ->.
  { apply list_fmap_ext. intros _ d _. symmetry.
    apply (occurrences_column day_name). }
  rewrite (column_sum_of_nat
             (λ d, length (filter (λ y, y = d) (omap id (map day_name data))))).
  f_equal. rewrite sum_occurrences; [|apply day_names_NoDup|].
  - clear -Hderived. induction data as [|r data IH]; [done|].
    specialize (IH (λ i Hi, Hderived i (list_elem_of_further _ _ _ Hi))).
    pose proof (Hderived r (list_elem_of_here _ _)) as Hr.
    cbn [map]. rewrite filter_cons, Hr.
    destruct (date r) as [t|].
    + rewrite decide_True by done.
      change (omap id ((ts_day_name <$> Some t) :: map day_name data))
        with (ts_day_name t :: omap id (map day_name data)).
      cbn [length]. by rewrite IH.
    + rewrite decide_False by (by intros [? ?]).
      change (omap id ((ts_day_name <$> None) :: map day_name data))
        with (omap id (map day_name data)).
      done.
  - intros d (c & Hc & Heq)%list_elem_of_omap. unfold id in Heq. subst c.
    apply list_elem_of_fmap in Hc as (r & Hday & Hr).
    rewrite (Hderived r Hr) in Hday.
    destruct (date r) as [t|]; [|done]. injection Hday as ->.
    apply ts_day_name_in.
Qed.

End WeekdayChart.

(** The three sample incidents: two have a date, one has none. *)
Lemma weekday_counts_total_witness :
  column_sum (omap snd (Dashboard.dow_counts Sample.incidents)) = 2.
Proof.
  refine (weekday_counts_total Sample.incidents _).
  intros r Hr. repeat (apply elem_of_cons in Hr as [->|Hr]); try done.
  by apply elem_of_nil in Hr.
Defined.
